(** * The SQS order pipeline: OrderManager, OrderProcessor, DLQProcessor

    A shallow embedding of the three Lambda handlers of [sqs/functions] and of
    the queue configuration of the CDK stack, with the properties of the
    processing pipeline proved about them.

    Conventions of the embedding.
    - A JavaScript [number] is an IEEE 754 binary64 value: Rocq's primitive
      [float], with the same rounding.
    - A DynamoDB item is an attribute map ([gmap string AttributeValue]); a
      table is a map from its primary key to items.
    - An [async] function is a function from the world to a settled promise
      and the world it leaves behind; effects that happened before a [throw]
      stay.
    - What the outside world decides (does a request to DynamoDB or SQS fail,
      what does the clock read, what does [Math.random] draw) is an explicit
      argument [Env] of each handler, and every theorem quantifies over it.
    - Calls to the logger change neither a table nor a queue and are left out;
      the [setTimeout] delay of [processOrderItem] likewise. *)

From Stdlib Require Import ZArith NArith List String Ascii.
From Stdlib Require Import Floats.PrimFloat Uint63.
From Stdlib Require Import DecimalString DecimalNat DecimalN.
From stdpp Require Import gmap strings list fin_maps.

Set Warnings "-inexact-float".
Open Scope string_scope.

(** ** JavaScript values *)

Module Js.

Abbreviation number := float.

(** [s.slice(-1)]: the last character of [s] as a string, or the empty
    string when [s] is empty. *)
Fixpoint slice_last (s : string) : string :=
  match s with
  | EmptyString => EmptyString
  | String c EmptyString => String c EmptyString
  | String _ rest => slice_last rest
  end.

(** [`${n}`] for an array index. *)
Definition index_toString (n : nat) : string :=
  NilZero.string_of_uint (Nat.to_uint n).

(** [`${n}`] for a reading of [Date.now()], a count of milliseconds. *)
Definition millis_toString (n : N) : string :=
  NilZero.string_of_uint (N.to_uint n).

(** [items.length] as a number. *)
Definition length_number {A} (l : list A) : number :=
  PrimFloat.of_uint63 (Uint63.of_Z (Z.of_nat (length l))).

(** The sum of a list of numbers, added from the left starting from [0],
    which is the order [reduce] adds them in. *)
Definition sum (l : list number) : number :=
  fold_left PrimFloat.add l 0%float.

(** No character of [s] is a hyphen. *)
Fixpoint hyphen_free (s : string) : bool :=
  match s with
  | EmptyString => true
  | String c rest => negb (Ascii.eqb c "-") && hyphen_free rest
  end.

End Js.

(** ** The Work Store (DynamoDB) and the queue (SQS) *)

Inductive AttributeValue :=
| AttrS (s : string)
| AttrN (n : Js.number).

Abbreviation Item := (gmap string AttributeValue).
Abbreviation Key := (string * string)%type.
Abbreviation Table := (gmap (string * string) (gmap string AttributeValue)).

(** [===] against a string literal. *)
Definition strict_eq_string (v : option AttributeValue) (lit : string) : bool :=
  match v with
  | Some (AttrS s) => bool_decide (s = lit)
  | _ => false
  end.

Record SendMessageCommand := {
  QueueUrl : string;
  MessageBody : Item;
  MessageGroupId : string;
  MessageDeduplicationId : string
}.

(** The message type of the two consumers. *)
Record OrderItemMessage := {
  orderId : string;
  userId : string;
  itemId : string;
  itemDetail : string;
  quantity : Js.number;
  price : Js.number;
  timestamp : string
}.

(** [record.body] is a string; what matters of it is what [JSON.parse] makes
    of it: a message, or a [SyntaxError]. *)
Inductive Body :=
| Json (itemMessage : OrderItemMessage)
| Malformed (raw : string).

Record SQSRecord := {
  messageId : string;
  body : Body
}.

Inductive Error :=
| SimulatedProcessingFailure (itemId : string)
| SyntaxError
| DynamoDBError
| SQSError.

(** The requests made to the outside, in the order they are made. *)
Inductive Event :=
| EvGet (key : Key)
| EvUpdate (key : Key) (assignments : list (string * AttributeValue))
| EvPut (item : Item)
| EvBatchWrite (items : list Item)
| EvSend (command : SendMessageCommand)
| EvProcessOrderItem (itemMessage : OrderItemMessage).

Record World := {
  OrdersTable : Table;           (* key: orderId, timestamp *)
  OrderItemsTable : Table;       (* key: orderId, itemId *)
  OrdersFifoQueue : list SendMessageCommand;  (* accepted sends, oldest first *)
  trace : list Event
}.

Definition record_event (e : Event) (w : World) : World :=
  {| OrdersTable := OrdersTable w;
     OrderItemsTable := OrderItemsTable w;
     OrdersFifoQueue := OrdersFifoQueue w;
     trace := trace w ++ [e] |}.

Definition with_OrdersTable (f : Table → Table) (w : World) : World :=
  {| OrdersTable := f (OrdersTable w);
     OrderItemsTable := OrderItemsTable w;
     OrdersFifoQueue := OrdersFifoQueue w;
     trace := trace w |}.

Definition with_OrderItemsTable (f : Table → Table) (w : World) : World :=
  {| OrdersTable := OrdersTable w;
     OrderItemsTable := f (OrderItemsTable w);
     OrdersFifoQueue := OrdersFifoQueue w;
     trace := trace w |}.

Definition enqueue (c : SendMessageCommand) (w : World) : World :=
  {| OrdersTable := OrdersTable w;
     OrderItemsTable := OrderItemsTable w;
     OrdersFifoQueue := OrdersFifoQueue w ++ [c];
     trace := trace w |}.

(** The status an item of the items table has, if any. *)
Definition itemStatus_of (w : World) (key : Key) : option AttributeValue :=
  OrderItemsTable w !! key ≫= λ item : Item, item !! "itemStatus".

(** The attribute [name] of the item of key [key], if any. *)
Definition attribute (t : Table) (key : Key) (name : string)
  : option AttributeValue :=
  t !! key ≫= λ item : Item, item !! name.

Definition PENDING : AttributeValue := AttrS "PENDING".
Definition PROCESSED : AttributeValue := AttrS "PROCESSED".
Definition FAILED : AttributeValue := AttrS "FAILED".

Definition terminal (status : option AttributeValue) : Prop :=
  status = Some PROCESSED ∨ status = Some FAILED.

(** ** Promises *)

Inductive Settled (A : Type) :=
| Fulfilled (value : A)
| Rejected (reason : Error).
Arguments Fulfilled {A} value.
Arguments Rejected {A} reason.

Definition Promise (A : Type) : Type := World → Settled A * World.

Definition resolve {A} (a : A) : Promise A := λ w, (Fulfilled a, w).
Definition throw {A} (e : Error) : Promise A := λ w, (Rejected e, w).

(** [const x = await p; k x] *)
Definition await {A B} (p : Promise A) (k : A → Promise B) : Promise B :=
  λ w, match p w with
       | (Fulfilled a, w') => k a w'
       | (Rejected e, w') => (Rejected e, w')
       end.

#[global] Instance Promise_ret : MRet Promise := @resolve.
#[global] Instance Promise_bind : MBind Promise := λ A B k p, await p k.

(** [try { body } catch (error) { handler error }] *)
Definition try_catch {A} (body : Promise A) (handler : Error → Promise A)
  : Promise A :=
  λ w, match body w with
       | (Fulfilled a, w') => (Fulfilled a, w')
       | (Rejected e, w') => handler e w'
       end.

(** [Promise.all]: every promise of the array has been started and runs to
    its end whatever the others do; the result rejects with the reason of a
    rejected one. The promises are run here in the order of the array. *)
Fixpoint Promise_all {A} (ps : list (Promise A)) : Promise (list A) :=
  match ps with
  | [] => resolve []
  | p :: rest =>
      λ w, let '(r, w1) := p w in
           let '(rs, w2) := Promise_all rest w1 in
           (match r, rs with
            | Fulfilled a, Fulfilled l => Fulfilled (a :: l)
            | Rejected e, _ => Rejected e
            | Fulfilled _, Rejected e => Rejected e
            end, w2)
  end.

(** [Promise.allSettled]: never rejects. *)
Fixpoint Promise_allSettled {A} (ps : list (Promise A))
  : Promise (list (Settled A)) :=
  match ps with
  | [] => resolve []
  | p :: rest =>
      λ w, let '(r, w1) := p w in
           let '(rs, w2) := Promise_allSettled rest w1 in
           (match rs with
            | Fulfilled l => Fulfilled (r :: l)
            | Rejected e => Rejected e
            end, w2)
  end.

(** ** The DynamoDB document client and the SQS client

    A request either fails, and then changes nothing, or has its effect. *)

Module dynamoDB.

Definition key_attributes (key : Key) : Item :=
  {[ "orderId" := AttrS key.1; "itemId" := AttrS key.2 ]}.

Definition assign (item : Item) (assignments : list (string * AttributeValue))
  : Item :=
  foldl (λ it av, <[av.1 := av.2]> it) item assignments.

(** [send(new GetCommand({TableName: ORDER_ITEMS_TABLE_NAME, Key}))],
    the result's [Item]. *)
Definition GetCommand (fails : bool) (key : Key) : Promise (option Item) :=
  λ w, let w' := record_event (EvGet key) w in
       if fails then (Rejected DynamoDBError, w')
       else (Fulfilled (OrderItemsTable w !! key), w').

(** [send(new UpdateCommand({TableName: ORDER_ITEMS_TABLE_NAME, Key,
    UpdateExpression: 'SET a = :a, b = :b'}))]: the attributes are set on
    the item of that key, which is created when there is none. *)
Definition UpdateCommand (fails : bool) (key : Key)
    (assignments : list (string * AttributeValue)) : Promise unit :=
  λ w, let w' := record_event (EvUpdate key assignments) w in
       if fails then (Rejected DynamoDBError, w')
       else (Fulfilled tt,
             with_OrderItemsTable
               (λ t, <[key := assign (default (key_attributes key) (t !! key))
                                     assignments]> t) w').

(** [send(new PutCommand({TableName: 'OrdersTable', Item}))]. *)
Definition PutCommand (fails : bool) (key : Key) (item : Item) : Promise unit :=
  λ w, let w' := record_event (EvPut item) w in
       if fails then (Rejected DynamoDBError, w')
       else (Fulfilled tt, with_OrdersTable (λ t, <[key := item]> t) w').

Definition put_all (items : list (Key * Item)) (t : Table) : Table :=
  foldl (λ t ki, <[ki.1 := ki.2]> t) t items.

(** [send(new BatchWriteCommand({RequestItems: {'OrderItemsTable': puts}}))]. *)
Definition BatchWriteCommand (fails : bool) (items : list (Key * Item))
  : Promise unit :=
  λ w, let w' := record_event (EvBatchWrite (items.*2)) w in
       if fails then (Rejected DynamoDBError, w')
       else (Fulfilled tt, with_OrderItemsTable (put_all items) w').

End dynamoDB.

Module sqs.

(** [send(new SendMessageCommand(...))]. *)
Definition send (fails : bool) (command : SendMessageCommand) : Promise unit :=
  λ w, let w' := record_event (EvSend command) w in
       if fails then (Rejected SQSError, w')
       else (Fulfilled tt, enqueue command w').

End sqs.

Definition JSON_parse (b : Body) : Promise OrderItemMessage :=
  match b with
  | Json itemMessage => resolve itemMessage
  | Malformed _ => throw SyntaxError
  end.

(** ** functions/OrderProcessor/index.ts *)

Module OrderProcessor.

Record Env := {
  getFails : bool;        (* the GetCommand request fails *)
  mathRandom : Js.number;   (* the draw [Math.random()] of the failure test *)
  updateFails : bool;     (* the UpdateCommand request fails *)
  toISOString : string    (* [new Date().toISOString()] *)
}.

Definition shouldSimulateFailure (itemId : string) (random : Js.number) : bool :=
  let lastDigit := Js.slice_last itemId in
  if bool_decide (lastDigit = "3") then true
  else if bool_decide (lastDigit = "1") then PrimFloat.ltb random 0.5%float
  else false.

Definition processOrderItem (env : Env) (itemMessage : OrderItemMessage)
  : Promise unit :=
  λ w, let w' := record_event (EvProcessOrderItem itemMessage) w in
       if shouldSimulateFailure (itemId itemMessage) (mathRandom env)
       then (Rejected (SimulatedProcessingFailure (itemId itemMessage)), w')
       else (Fulfilled tt, w').

Definition updateItemStatus (env : Env) (orderId itemId status : string)
  : Promise unit :=
  try_catch
    (dynamoDB.UpdateCommand (updateFails env) (orderId, itemId)
       [("itemStatus", AttrS status); ("processedAt", AttrS (toISOString env))])
    (λ error, throw error).

Definition processRecord (env : Env) (record : SQSRecord) : Promise unit :=
  try_catch
    (itemMessage ← JSON_parse (body record);
     existingItem ← dynamoDB.GetCommand (getFails env)
                      (orderId itemMessage, itemId itemMessage);
     if strict_eq_string (existingItem ≫= λ i : Item, i !! "itemStatus") "PROCESSED"
     then resolve tt
     else if strict_eq_string (existingItem ≫= λ i : Item, i !! "itemStatus") "FAILED"
     then resolve tt
     else
       (_ ← processOrderItem env itemMessage;
        updateItemStatus env (orderId itemMessage) (itemId itemMessage)
          "PROCESSED"))
    (λ error, throw error).

(** [envs i] is what the outside decides for the [i]-th record. *)
Definition handler (envs : nat → Env) (event : list SQSRecord) : Promise unit :=
  _ ← Promise_all (imap (λ i record, processRecord (envs i) record) event);
  resolve tt.

End OrderProcessor.

(** ** functions/DLQProcessor/index.ts *)

Module DLQProcessor.

Record Env := {
  updateFails : bool;     (* the UpdateCommand request fails *)
  toISOString : string    (* [new Date().toISOString()] *)
}.

Definition updateItemStatusToFailed (env : Env) (orderId itemId : string)
  : Promise unit :=
  try_catch
    (dynamoDB.UpdateCommand (updateFails env) (orderId, itemId)
       [("itemStatus", AttrS "FAILED"); ("failedAt", AttrS (toISOString env))])
    (λ error, throw error).

Definition processFailedItem (env : Env) (itemMessage : OrderItemMessage)
  : Promise unit :=
  try_catch
    (updateItemStatusToFailed env (orderId itemMessage) (itemId itemMessage))
    (λ error, resolve tt).

Definition processDLQRecord (env : Env) (record : SQSRecord) : Promise unit :=
  try_catch
    (itemMessage ← JSON_parse (body record);
     processFailedItem env itemMessage)
    (λ error, resolve tt).

(** [envs i] is what the outside decides for the [i]-th record. *)
Definition handler (envs : nat → Env) (event : list SQSRecord) : Promise unit :=
  _ ← Promise_allSettled
        (imap (λ i record, processDLQRecord (envs i) record) event);
  resolve tt.

End DLQProcessor.

(** ** functions/OrderManager/index.ts

    [handler] below is the function that [makeIdempotent] wraps; the wrapper
    itself belongs to a library and is not modelled. *)

Module OrderManager.

Record OrderItem := {
  itemDetail : string;
  quantity : Js.number;
  price : Js.number
}.

Record OrderEvent := {
  orderItems : list OrderItem;
  orderId : string;
  userId : string;
  orderStatus : string
}.

(** An element of [orderItemRecords]. *)
Record OrderItemRecord := {
  rec_orderId : string;
  rec_itemId : string;
  rec_itemDetail : string;
  rec_quantity : Js.number;
  rec_price : Js.number;
  rec_itemStatus : string;
  rec_timestamp : string
}.

(** The object as the document client stores it and as [JSON.stringify]
    writes it. *)
Definition to_item (r : OrderItemRecord) : Item :=
  {[ "orderId" := AttrS (rec_orderId r);
     "itemId" := AttrS (rec_itemId r);
     "itemDetail" := AttrS (rec_itemDetail r);
     "quantity" := AttrN (rec_quantity r);
     "price" := AttrN (rec_price r);
     "itemStatus" := AttrS (rec_itemStatus r);
     "timestamp" := AttrS (rec_timestamp r) ]}.

(** [body] is [JSON.stringify({ message })]; the record keeps [message]. *)
Record APIGatewayProxyResult := {
  statusCode : nat;
  body_message : string
}.

Record Env := {
  ORDERS_FIFO_QUEUE_URL : string;  (* [process.env.ORDERS_FIFO_QUEUE_URL] *)
  toISOString : string;          (* [new Date().toISOString()] *)
  putFails : bool;               (* the PutCommand request fails *)
  batchWriteFails : bool;        (* the BatchWriteCommand request fails *)
  dateNow : nat → N;             (* [Date.now()] when the message of that index is built *)
  sendFails : nat → bool         (* the send of the message of that index fails *)
}.

Definition totalValue (items : list OrderItem) : Js.number :=
  fold_left (λ sum item, (sum + price item * quantity item)%float) items 0%float.

Definition orderRecord (orderId userId : string) (items : list OrderItem)
    (orderStatus timestamp : string) : Item :=
  {[ "orderId" := AttrS orderId;
     "userId" := AttrS userId;
     "orderStatus" := AttrS orderStatus;
     "timestamp" := AttrS timestamp;
     "totalItems" := AttrN (Js.length_number items);
     "totalValue" := AttrN (totalValue items) ]}.

Definition itemId_of (orderId : string) (index : nat) : string :=
  orderId +:+ "-item-" +:+ Js.index_toString index.

Definition orderItemRecords_of (orderId : string) (items : list OrderItem)
    (timestamp : string) : list OrderItemRecord :=
  imap (λ index item,
          {| rec_orderId := orderId;
             rec_itemId := itemId_of orderId index;
             rec_itemDetail := itemDetail item;
             rec_quantity := quantity item;
             rec_price := price item;
             rec_itemStatus := "PENDING";
             rec_timestamp := timestamp |}) items.

Definition addOrderToDatabase (env : Env) (orderId userId : string)
    (items : list OrderItem) (orderStatus : string)
  : Promise (list OrderItemRecord) :=
  let timestamp := toISOString env in
  let orderItemRecords := orderItemRecords_of orderId items timestamp in
  _ ← try_catch
        (_ ← dynamoDB.PutCommand (putFails env) (orderId, timestamp)
               (orderRecord orderId userId items orderStatus timestamp);
         dynamoDB.BatchWriteCommand (batchWriteFails env)
           (map (λ r, ((rec_orderId r, rec_itemId r), to_item r))
                orderItemRecords))
        (λ error, throw error);
  resolve orderItemRecords.

Definition deduplicationId (itemId : string) (now : N) (index : nat) : string :=
  itemId +:+ "-" +:+ Js.millis_toString now +:+ "-" +:+ Js.index_toString index.

Definition message (env : Env) (index : nat) (itemMessage : OrderItemRecord)
  : SendMessageCommand :=
  {| QueueUrl := ORDERS_FIFO_QUEUE_URL env;
     MessageBody := to_item itemMessage;
     MessageGroupId := rec_orderId itemMessage;
     MessageDeduplicationId :=
       deduplicationId (rec_itemId itemMessage) (dateNow env index) index |}.

Definition handler (env : Env) (event : OrderEvent)
  : Promise APIGatewayProxyResult :=
  orderItemRecords ← addOrderToDatabase env (orderId event) (userId event)
                       (orderItems event) (orderStatus event);
  let messagePromises :=
    imap (λ index itemMessage,
            sqs.send (sendFails env index) (message env index itemMessage))
         orderItemRecords in
  _ ← Promise_all messagePromises;
  resolve {| statusCode := 200;
             body_message := "Orders processed successfully" |}.

End OrderManager.

(** ** lib/sqs-stack.ts: the queue configuration *)

Module SqsStack.

(** [deadLetterQueue: { queue: dlq, maxReceiveCount: 3 }] *)
Definition maxReceiveCount : nat := 3.

(** [batchSize] of the two event sources. *)
Definition orderProcessor_batchSize : nat := 1.
Definition dlqProcessor_batchSize : nat := 10.

End SqsStack.

(** ** The queue substrate *)

(** The managed queue service is not part of the sources: of the Ordered
    Work Queue the repository has the configuration
    ([SqsStack.maxReceiveCount]) and the consumer ([OrderProcessor.handler],
    fed one message per invocation). *)
Module QueueSubstrate.

(** Modelled from the spec: the state of the queue substrate, which is
    missing from the sources. The spec gives it a redelivery counter per
    message on the Ordered Work Queue, and a Dead-Letter Queue. [deliveries]
    records what was delivered to the Item Processor. *)
Record Queues := {
  mainQueue : list (SQSRecord * nat);  (* message, failed deliveries so far *)
  deadLetterQueue : list SQSRecord;
  deliveries : list SQSRecord           (* to the Item Processor, oldest first *)
}.

(** Modelled from the spec: one delivery by the queue substrate, which is
    missing from the sources, of the message at the head of the main queue.
    An acknowledged message is removed. A message that is not acknowledged
    is redelivered, up to the maximum count of redeliveries; on the (max+1)-th
    failed delivery it is removed from the Ordered Work Queue and placed on
    the Dead-Letter Queue with its payload intact. *)
Definition deliver (env : OrderProcessor.Env) (s : Queues * World)
  : Queues * World :=
  match mainQueue s.1 with
  | [] => s
  | (record, failures) :: rest =>
      let '(outcome, w') := OrderProcessor.handler (λ _, env) [record] s.2 in
      let delivered := (deliveries s.1 ++ [record])%list in
      match outcome with
      | Fulfilled _ =>
          ({| mainQueue := rest;
              deadLetterQueue := deadLetterQueue s.1;
              deliveries := delivered |}, w')
      | Rejected _ =>
          if bool_decide (SqsStack.maxReceiveCount < S failures)
          then ({| mainQueue := rest;
                   deadLetterQueue := (deadLetterQueue s.1 ++ [record])%list;
                   deliveries := delivered |}, w')
          else ({| mainQueue := (record, S failures) :: rest;
                   deadLetterQueue := deadLetterQueue s.1;
                   deliveries := delivered |}, w')
      end
  end.

(** Modelled from the spec: [n] deliveries in a row by the queue substrate,
    which is missing from the sources; [envs i] is what the outside decides
    during the [i]-th of them. *)
Fixpoint run (envs : nat → OrderProcessor.Env) (n : nat) (s : Queues * World)
  : Queues * World :=
  match n with
  | 0 => s
  | S n' => run (λ i, envs (S i)) n' (deliver (envs 0) s)
  end.

Definition start (record : SQSRecord) (w : World) : Queues * World :=
  ({| mainQueue := [(record, 0)]; deadLetterQueue := []; deliveries := [] |}, w).

End QueueSubstrate.

(** ** Sample inputs

    In the environments below a boolean says whether the request it stands
    for fails. *)

Module Sample.

Definition empty_world : World :=
  {| OrdersTable := ∅; OrderItemsTable := ∅; OrdersFifoQueue := []; trace := [] |}.

(** The order of the README. *)
Definition laptop : OrderManager.OrderItem :=
  {| OrderManager.itemDetail := "Laptop";
     OrderManager.quantity := 1%float;
     OrderManager.price := 999.99%float |}.

Definition order_001 : OrderManager.OrderEvent :=
  {| OrderManager.orderItems := [laptop];
     OrderManager.orderId := "order-001";
     OrderManager.userId := "user-001";
     OrderManager.orderStatus := "pending" |}.

(** An order of another user under the same order id. *)
Definition order_001_again : OrderManager.OrderEvent :=
  {| OrderManager.orderItems := [laptop];
     OrderManager.orderId := "order-001";
     OrderManager.userId := "user-002";
     OrderManager.orderStatus := "pending" |}.

Definition manager_env (put batch send : bool) : OrderManager.Env :=
  {| OrderManager.ORDERS_FIFO_QUEUE_URL := "sqs-main-queue.fifo";
     OrderManager.toISOString := "2025-01-01T00:00:00.000Z";
     OrderManager.putFails := put;
     OrderManager.batchWriteFails := batch;
     OrderManager.dateNow := λ _, 1735689600000%N;
     OrderManager.sendFails := λ _, send |}.

Definition item_message (id : string) : OrderItemMessage :=
  {| orderId := "order-001"; userId := "user-001"; itemId := id;
     itemDetail := "Laptop"; quantity := 1%float; price := 999.99%float;
     timestamp := "2025-01-01T00:00:00.000Z" |}.

Definition sqs_record (id : string) : SQSRecord :=
  {| messageId := "m-1"; body := Json (item_message id) |}.

Definition stored_item (id status : string) : Item :=
  {[ "orderId" := AttrS "order-001";
     "itemId" := AttrS id;
     "itemDetail" := AttrS "Laptop";
     "quantity" := AttrN 1%float;
     "price" := AttrN 999.99%float;
     "itemStatus" := AttrS status;
     "timestamp" := AttrS "2025-01-01T00:00:00.000Z" ]}.

(** A world whose items table holds one item, of the given status. *)
Definition world_with (id status : string) : World :=
  {| OrdersTable := ∅;
     OrderItemsTable := {[ ("order-001", id) := stored_item id status ]};
     OrdersFifoQueue := [];
     trace := [] |}.

Definition processor_env (get : bool) (random : Js.number) (update : bool)
  : OrderProcessor.Env :=
  {| OrderProcessor.getFails := get;
     OrderProcessor.mathRandom := random;
     OrderProcessor.updateFails := update;
     OrderProcessor.toISOString := "2025-01-01T00:00:05.000Z" |}.

Definition dlq_env (update : bool) : DLQProcessor.Env :=
  {| DLQProcessor.updateFails := update;
     DLQProcessor.toISOString := "2025-01-01T00:02:00.000Z" |}.

End Sample.

(** ** More sample inputs *)

Module MoreSamples.






Definition malformed_record : SQSRecord :=
  {| messageId := "m-2"; body := Malformed "not json" |}.

(** An item that was processed: it carries a [processedAt]. *)
Definition processed_item (id : string) : Item :=
  <["processedAt" := AttrS "2025-01-01T00:00:05.000Z"]>
    (Sample.stored_item id "PROCESSED").

Definition world_with_processed (id : string) : World :=
  {| OrdersTable := ∅;
     OrderItemsTable := {[ ("order-001", id) := processed_item id ]};
     OrdersFifoQueue := [];
     trace := [] |}.

End MoreSamples.

(** * Properties *)

(** ** Worlds and promises *)

Lemma terminal_strict_eq status :
  terminal status ↔
  strict_eq_string status "PROCESSED" || strict_eq_string status "FAILED" = true.
Proof.
  unfold terminal, PROCESSED, FAILED. split.
  - intros [-> | ->]; reflexivity.
  - destruct status as [[s | n] |]; simpl; try discriminate.
    intros H. apply orb_prop in H as [H | H];
      apply bool_decide_eq_true in H; subst; auto.
Qed.

Lemma not_terminal_strict_eq status :
  ¬ terminal status →
  strict_eq_string status "PROCESSED" = false ∧
  strict_eq_string status "FAILED" = false.
Proof.
  intros H. rewrite terminal_strict_eq in H.
  destruct (strict_eq_string status "PROCESSED"),
           (strict_eq_string status "FAILED"); simpl in H; auto; contradiction.
Qed.

(** ** OrderProcessor *)

(** What [processRecord] does on a well-formed body, branch by branch. *)
Lemma processRecord_Json env record m w :
  body record = Json m →
  OrderProcessor.processRecord env record w =
  let key := (orderId m, itemId m) in
  let w1 := record_event (EvGet key) w in
  if OrderProcessor.getFails env then (Rejected DynamoDBError, w1)
  else if strict_eq_string (itemStatus_of w key) "PROCESSED"
          || strict_eq_string (itemStatus_of w key) "FAILED"
  then (Fulfilled tt, w1)
  else
    let w2 := record_event (EvProcessOrderItem m) w1 in
    if OrderProcessor.shouldSimulateFailure (itemId m)
         (OrderProcessor.mathRandom env)
    then (Rejected (SimulatedProcessingFailure (itemId m)), w2)
    else
      let assignments :=
        [("itemStatus", AttrS "PROCESSED");
         ("processedAt", AttrS (OrderProcessor.toISOString env))] in
      let w3 := record_event (EvUpdate key assignments) w2 in
      if OrderProcessor.updateFails env then (Rejected DynamoDBError, w3)
      else (Fulfilled tt,
            with_OrderItemsTable
              (λ t, <[key := dynamoDB.assign
                               (default (dynamoDB.key_attributes key) (t !! key))
                               assignments]> t) w3).
Proof.
  intros Hbody.
  unfold OrderProcessor.processRecord, try_catch, mbind, Promise_bind, await.
  rewrite Hbody. cbn [JSON_parse resolve].
  unfold dynamoDB.GetCommand, itemStatus_of, mbind.
  destruct (OrderProcessor.getFails env); [reflexivity |].
  cbn zeta.
  set (status := option_bind _ _ _ _).
  destruct (strict_eq_string status "PROCESSED"); [reflexivity |].
  destruct (strict_eq_string status "FAILED"); [reflexivity |].
  cbn [orb]. unfold OrderProcessor.processOrderItem.
  destruct (OrderProcessor.shouldSimulateFailure _ _); [reflexivity |].
  unfold OrderProcessor.updateItemStatus, try_catch, dynamoDB.UpdateCommand.
  destruct (OrderProcessor.updateFails env); reflexivity.
Qed.

Lemma processRecord_Malformed env record raw w :
  body record = Malformed raw →
  OrderProcessor.processRecord env record w = (Rejected SyntaxError, w).
Proof.
  intros Hbody.
  unfold OrderProcessor.processRecord, try_catch, mbind, Promise_bind, await.
  rewrite Hbody. reflexivity.
Qed.

(** A batch of one record, which is what the event source delivers. *)
Lemma handler_single envs record w :
  OrderProcessor.handler envs [record] w =
  let '(r, w') := OrderProcessor.processRecord (envs 0) record w in
  (match r with Fulfilled _ => Fulfilled tt | Rejected e => Rejected e end, w').
Proof.
  unfold OrderProcessor.handler, mbind, Promise_bind, await. simpl.
  destruct (OrderProcessor.processRecord (envs 0) record w) as [[[] | e] w'];
    reflexivity.
Qed.

(** [processRecord] writes to no table but the items table, sends nothing,
    and either leaves the items table as it is or, for a message whose item
    was not in a terminal status, sets the two attributes on that item. *)
Lemma processRecord_frame env record w :
  OrdersTable (OrderProcessor.processRecord env record w).2 = OrdersTable w ∧
  OrdersFifoQueue (OrderProcessor.processRecord env record w).2
    = OrdersFifoQueue w ∧
  (OrderItemsTable (OrderProcessor.processRecord env record w).2
     = OrderItemsTable w
   ∨ ∃ m, body record = Json m ∧
       ¬ terminal (itemStatus_of w (orderId m, itemId m)) ∧
       OrderProcessor.shouldSimulateFailure (itemId m)
         (OrderProcessor.mathRandom env) = false ∧
       OrderItemsTable (OrderProcessor.processRecord env record w).2
       = <[(orderId m, itemId m) :=
             dynamoDB.assign
               (default (dynamoDB.key_attributes (orderId m, itemId m))
                        (OrderItemsTable w !! (orderId m, itemId m)))
               [("itemStatus", AttrS "PROCESSED");
                ("processedAt", AttrS (OrderProcessor.toISOString env))]]>
           (OrderItemsTable w)).
Proof.
  destruct (body record) as [m | raw] eqn:Hbody.
  2: { rewrite (processRecord_Malformed _ _ raw) by done. auto. }
  rewrite (processRecord_Json _ _ m) by done. cbn zeta.
  destruct (OrderProcessor.getFails env); [simpl; auto |].
  destruct (strict_eq_string _ "PROCESSED" || strict_eq_string _ "FAILED")
    eqn:Hterm; [simpl; auto |].
  destruct (OrderProcessor.shouldSimulateFailure _ _) eqn:Hfail; [simpl; auto |].
  destruct (OrderProcessor.updateFails env); [simpl; auto |].
  simpl. split; [done |]. split; [done |]. right. exists m.
  repeat split; try done.
  rewrite terminal_strict_eq, Hterm. discriminate.
Qed.

(** (C4) Duplicate delivery is a no-op. When the item of a delivered message
    already has status PROCESSED or FAILED, the Item Processor makes one
    request, the lookup, and nothing else: the unit of work is not run, no
    write is made, and the tables and the queue are as before; when the
    lookup succeeds the handler resolves, which acknowledges the message. *)
Theorem duplicate_delivery_is_noop
    (envs : nat → OrderProcessor.Env) (record : SQSRecord)
    (m : OrderItemMessage) (w : World) :
  body record = Json m →
  terminal (itemStatus_of w (orderId m, itemId m)) →
  (OrderProcessor.handler envs [record] w).2
    = record_event (EvGet (orderId m, itemId m)) w ∧
  OrderItemsTable (OrderProcessor.handler envs [record] w).2
    = OrderItemsTable w ∧
  (OrderProcessor.getFails (envs 0) = false →
   (OrderProcessor.handler envs [record] w).1 = Fulfilled tt).
Proof.
  intros Hbody Hterm. rewrite handler_single.
  rewrite (processRecord_Json _ _ m) by done. cbn zeta.
  apply terminal_strict_eq in Hterm. rewrite Hterm.
  destruct (OrderProcessor.getFails (envs 0)); simpl; auto.
  repeat split; auto. discriminate.
Qed.

Lemma duplicate_delivery_is_noop_witness :
  (OrderProcessor.handler (λ _, Sample.processor_env false 0.9%float false)
     [Sample.sqs_record "order-001-item-0"]
     (Sample.world_with "order-001-item-0" "PROCESSED")).2
    = record_event (EvGet ("order-001", "order-001-item-0"))
        (Sample.world_with "order-001-item-0" "PROCESSED") ∧
  OrderItemsTable
    (OrderProcessor.handler (λ _, Sample.processor_env false 0.9%float false)
       [Sample.sqs_record "order-001-item-0"]
       (Sample.world_with "order-001-item-0" "PROCESSED")).2
    = OrderItemsTable (Sample.world_with "order-001-item-0" "PROCESSED") ∧
  (false = false →
   (OrderProcessor.handler (λ _, Sample.processor_env false 0.9%float false)
      [Sample.sqs_record "order-001-item-0"]
      (Sample.world_with "order-001-item-0" "PROCESSED")).1 = Fulfilled tt).
Proof.
  apply (duplicate_delivery_is_noop
           (λ _, Sample.processor_env false 0.9%float false)
           (Sample.sqs_record "order-001-item-0")
           (Sample.item_message "order-001-item-0")
           (Sample.world_with "order-001-item-0" "PROCESSED")).
  - reflexivity.
  - left. reflexivity.
Defined.

(** A single record whose unit of work throws: the outcome of the handler
    and the world it leaves. *)
Lemma handler_single_failing envs record m w :
  body record = Json m →
  ¬ terminal (itemStatus_of w (orderId m, itemId m)) →
  OrderProcessor.shouldSimulateFailure (itemId m)
    (OrderProcessor.mathRandom (envs 0)) = true →
  OrderProcessor.handler envs [record] w =
  let w1 := record_event (EvGet (orderId m, itemId m)) w in
  if OrderProcessor.getFails (envs 0) then (Rejected DynamoDBError, w1)
  else (Rejected (SimulatedProcessingFailure (itemId m)),
        record_event (EvProcessOrderItem m) w1).
Proof.
  intros Hbody Hterm Hfail. rewrite handler_single.
  rewrite (processRecord_Json _ _ m) by done. cbn zeta.
  apply not_terminal_strict_eq in Hterm as [-> ->]. rewrite Hfail.
  by destruct (OrderProcessor.getFails (envs 0)).
Qed.

(** (C3) A processing failure propagates. When the item of a delivered
    message is not in a terminal status and the unit of work throws, the
    handler rejects, so the message is not acknowledged, and the items table
    is exactly as before: the status is unchanged and no processedAt is
    written. The reason of the rejection is the failure of the unit of work,
    or that of the lookup when the lookup itself fails. *)
Theorem processing_failure_propagates
    (envs : nat → OrderProcessor.Env) (record : SQSRecord)
    (m : OrderItemMessage) (w : World) :
  body record = Json m →
  ¬ terminal (itemStatus_of w (orderId m, itemId m)) →
  OrderProcessor.shouldSimulateFailure (itemId m)
    (OrderProcessor.mathRandom (envs 0)) = true →
  (OrderProcessor.handler envs [record] w).1
    = Rejected (if OrderProcessor.getFails (envs 0) then DynamoDBError
                else SimulatedProcessingFailure (itemId m)) ∧
  OrderItemsTable (OrderProcessor.handler envs [record] w).2
    = OrderItemsTable w ∧
  itemStatus_of (OrderProcessor.handler envs [record] w).2
    (orderId m, itemId m) = itemStatus_of w (orderId m, itemId m) ∧
  attribute (OrderItemsTable (OrderProcessor.handler envs [record] w).2)
    (orderId m, itemId m) "processedAt"
  = attribute (OrderItemsTable w) (orderId m, itemId m) "processedAt".
Proof.
  intros Hbody Hterm Hfail.
  rewrite (handler_single_failing _ _ m) by done. cbn zeta.
  destruct (OrderProcessor.getFails (envs 0)); simpl; auto.
Qed.

Lemma processing_failure_propagates_witness :
  (OrderProcessor.handler (λ _, Sample.processor_env false 0.25%float false)
     [Sample.sqs_record "order-001-item-1"]
     (Sample.world_with "order-001-item-1" "PENDING")).1
    = Rejected (SimulatedProcessingFailure "order-001-item-1") ∧
  OrderItemsTable
    (OrderProcessor.handler (λ _, Sample.processor_env false 0.25%float false)
       [Sample.sqs_record "order-001-item-1"]
       (Sample.world_with "order-001-item-1" "PENDING")).2
    = OrderItemsTable (Sample.world_with "order-001-item-1" "PENDING") ∧
  itemStatus_of
    (OrderProcessor.handler (λ _, Sample.processor_env false 0.25%float false)
       [Sample.sqs_record "order-001-item-1"]
       (Sample.world_with "order-001-item-1" "PENDING")).2
    ("order-001", "order-001-item-1") = Some PENDING ∧
  attribute
    (OrderItemsTable
       (OrderProcessor.handler (λ _, Sample.processor_env false 0.25%float false)
          [Sample.sqs_record "order-001-item-1"]
          (Sample.world_with "order-001-item-1" "PENDING")).2)
    ("order-001", "order-001-item-1") "processedAt" = None.
Proof.
  apply (processing_failure_propagates
           (λ _, Sample.processor_env false 0.25%float false)
           (Sample.sqs_record "order-001-item-1")
           (Sample.item_message "order-001-item-1")
           (Sample.world_with "order-001-item-1" "PENDING")).
  - reflexivity.
  - intros [H | H]; vm_compute in H; discriminate H.
  - reflexivity.
Defined.

(** *** Batches *)

Lemma Promise_all_invariant {A} (P : World → Prop) (ps : list (Promise A)) :
  (∀ p w, p ∈ ps → P w → P (p w).2) →
  ∀ w, P w → P (Promise_all ps w).2.
Proof.
  induction ps as [| p rest IH]; intros Hstep w Hw; [exact Hw |].
  simpl. destruct (p w) as [r w1] eqn:Hp.
  destruct (Promise_all rest w1) as [rs w2] eqn:Hrest. simpl.
  change w2 with (rs, w2).2. rewrite <- Hrest. apply IH.
  - intros q v Hq. apply Hstep. by right.
  - change w1 with (r, w1).2. rewrite <- Hp. apply Hstep; [by left | done].
Qed.

Lemma Promise_allSettled_invariant {A} (P : World → Prop)
    (ps : list (Promise A)) :
  (∀ p w, p ∈ ps → P w → P (p w).2) →
  ∀ w, P w → P (Promise_allSettled ps w).2.
Proof.
  induction ps as [| p rest IH]; intros Hstep w Hw; [exact Hw |].
  simpl. destruct (p w) as [r w1] eqn:Hp.
  destruct (Promise_allSettled rest w1) as [rs w2] eqn:Hrest. simpl.
  change w2 with (rs, w2).2. rewrite <- Hrest. apply IH.
  - intros q v Hq. apply Hstep. by right.
  - change w1 with (r, w1).2. rewrite <- Hp. apply Hstep; [by left | done].
Qed.

Lemma Promise_allSettled_fulfilled {A} (ps : list (Promise A)) w :
  ∃ l, (Promise_allSettled ps w).1 = Fulfilled l.
Proof.
  revert w. induction ps as [| p rest IH]; intros w; simpl; [by eexists |].
  destruct (p w) as [r w1]. destruct (IH w1) as [l Hl].
  destruct (Promise_allSettled rest w1) as [rs w2]. simpl in *. subst rs.
  by eexists.
Qed.

(** What every [processRecord] preserves, the handler preserves, whatever the
    batch. *)
Lemma OrderProcessor_handler_invariant (P : World → Prop) envs event :
  (∀ env record w, P w → P (OrderProcessor.processRecord env record w).2) →
  ∀ w, P w → P (OrderProcessor.handler envs event w).2.
Proof.
  intros Hstep w Hw.
  assert (P (Promise_all
    (imap (λ i record, OrderProcessor.processRecord (envs i) record) event)
    w).2) as Hall.
  { apply Promise_all_invariant; [| done].
    intros p v Hp. apply elem_of_lookup_imap in Hp as (i & r & -> & _).
    by apply Hstep. }
  unfold OrderProcessor.handler, mbind, Promise_bind, await.
  destruct (Promise_all _ w) as [[l | e] w']; exact Hall.
Qed.

Lemma Promise_all_rejects {A} (ps : list (Promise A)) p qs w :
  (∃ e, (p (Promise_all ps w).2).1 = Rejected e) →
  ∃ e', (Promise_all (ps ++ p :: qs) w).1 = Rejected e'.
Proof.
  revert w. induction ps as [| q rest IH]; intros w [e Hp]; simpl in *.
  - destruct (p w) as [r w1]. simpl in Hp. subst r.
    destruct (Promise_all qs w1) as [rs w2]. by eexists.
  - destruct (q w) as [r w1].
    destruct (Promise_all rest w1) as [rs w2] eqn:Hrest.
    destruct (IH w1) as [e' He']; [exists e; by rewrite Hrest |].
    destruct (Promise_all (rest ++ p :: qs) w1) as [rs' w2'].
    simpl in He'. subst rs'. destruct r; by eexists.
Qed.

Lemma OrderProcessor_handler_world envs event w :
  (OrderProcessor.handler envs event w).2 =
  (Promise_all
     (imap (λ i record, OrderProcessor.processRecord (envs i) record) event)
     w).2.
Proof.
  unfold OrderProcessor.handler, mbind, Promise_bind, await.
  by destruct (Promise_all _ w) as [[l | e] w'].
Qed.

(** In a batch of any size, a record whose unit of work throws makes the
    handler reject. [w0] is the world the earlier records of the batch leave. *)
Lemma processing_failure_rejects_batch envs earlier record later m w :
  body record = Json m →
  ¬ terminal (itemStatus_of (OrderProcessor.handler envs earlier w).2
                (orderId m, itemId m)) →
  OrderProcessor.shouldSimulateFailure (itemId m)
    (OrderProcessor.mathRandom (envs (length earlier))) = true →
  ∃ e, (OrderProcessor.handler envs (earlier ++ record :: later) w).1
       = Rejected e.
Proof.
  intros Hbody Hterm Hfail.
  rewrite OrderProcessor_handler_world in Hterm.
  unfold OrderProcessor.handler, mbind, Promise_bind, await.
  rewrite imap_app. cbn [imap].
  match goal with
  | |- context [Promise_all (?ps ++ ?p :: ?qs) w] =>
      destruct (Promise_all_rejects ps p qs w) as [e' He']
  end.
  - rewrite (processRecord_Json _ _ m) by done. cbn zeta.
    apply not_terminal_strict_eq in Hterm as [-> ->].
    rewrite Nat.add_0_r, Hfail.
    destruct (OrderProcessor.getFails _); by eexists.
  - destruct (Promise_all (_ ++ _) w) as [[l | e] w'].
    + discriminate He'.
    + by eexists.
Qed.

(** A terminal status is not changed by [processRecord], whatever the
    record. *)
Lemma processRecord_keeps_terminal env record key status w :
  terminal (Some status) →
  itemStatus_of w key = Some status →
  itemStatus_of (OrderProcessor.processRecord env record w).2 key = Some status.
Proof.
  intros Hterm Hkey.
  destruct (processRecord_frame env record w) as (_ & _ & [Heq | Hupd]).
  - unfold itemStatus_of in *. by rewrite Heq.
  - destruct Hupd as (m & _ & Hnot & _ & Heq).
    unfold itemStatus_of in *. rewrite Heq.
    rewrite lookup_insert_ne; [done |].
    intros <-. apply Hnot. unfold itemStatus_of. by rewrite Hkey.
Qed.

(** *** The built-in failure *)

Lemma shouldSimulateFailure_3 itemId random :
  Js.slice_last itemId = "3" →
  OrderProcessor.shouldSimulateFailure itemId random = true.
Proof. intros H. unfold OrderProcessor.shouldSimulateFailure. by rewrite H. Qed.

(** No record makes [processRecord] change an item whose id ends in 3. *)
Lemma processRecord_keeps_3 env record o i w :
  Js.slice_last i = "3" →
  OrderItemsTable (OrderProcessor.processRecord env record w).2 !! (o, i)
  = OrderItemsTable w !! (o, i).
Proof.
  intros Hlast.
  destruct (processRecord_frame env record w) as (_ & _ & [Heq | Hupd]).
  - by rewrite Heq.
  - destruct Hupd as (m & _ & _ & Hfail & Heq). rewrite Heq.
    apply lookup_insert_ne. intros [= <- <-].
    rewrite shouldSimulateFailure_3 in Hfail by done. discriminate.
Qed.

(** (C10) Items whose id ends in 3 always fail. For such an id the failure
    test is true whatever is drawn; so a delivered message of such an item
    that is not in a terminal status is rejected after the lookup and the
    unit of work, with no write; and no batch whatever makes the Item
    Processor change such an item: it is never marked PROCESSED by it. *)
Theorem items_ending_in_3_always_fail
    (envs : nat → OrderProcessor.Env) (record : SQSRecord)
    (m : OrderItemMessage) (w : World) :
  body record = Json m →
  Js.slice_last (itemId m) = "3" →
  (∀ random, OrderProcessor.shouldSimulateFailure (itemId m) random = true) ∧
  (¬ terminal (itemStatus_of w (orderId m, itemId m)) →
   OrderProcessor.getFails (envs 0) = false →
   OrderProcessor.handler envs [record] w
   = (Rejected (SimulatedProcessingFailure (itemId m)),
      record_event (EvProcessOrderItem m)
        (record_event (EvGet (orderId m, itemId m)) w))) ∧
  (∀ envs' event w',
     OrderItemsTable (OrderProcessor.handler envs' event w').2
       !! (orderId m, itemId m)
     = OrderItemsTable w' !! (orderId m, itemId m)).
Proof.
  intros Hbody Hlast. split; [| split].
  - intros random. by apply shouldSimulateFailure_3.
  - intros Hterm Hget. rewrite handler_single.
    rewrite (processRecord_Json _ _ m) by done. cbn zeta.
    apply not_terminal_strict_eq in Hterm as [-> ->].
    rewrite Hget, shouldSimulateFailure_3 by done. reflexivity.
  - intros envs' event w'.
    apply (OrderProcessor_handler_invariant
             (λ v, OrderItemsTable v !! (orderId m, itemId m)
                   = OrderItemsTable w' !! (orderId m, itemId m)));
      [| done].
    intros env r v Hv. by rewrite processRecord_keeps_3.
Qed.

Lemma items_ending_in_3_always_fail_witness :
  OrderProcessor.shouldSimulateFailure "order-001-item-3" 0.75%float = true ∧
  OrderProcessor.handler (λ _, Sample.processor_env false 0.75%float false)
    [Sample.sqs_record "order-001-item-3"]
    (Sample.world_with "order-001-item-3" "PENDING")
  = (Rejected (SimulatedProcessingFailure "order-001-item-3"),
     record_event (EvProcessOrderItem (Sample.item_message "order-001-item-3"))
       (record_event (EvGet ("order-001", "order-001-item-3"))
          (Sample.world_with "order-001-item-3" "PENDING"))).
Proof.
  destruct (items_ending_in_3_always_fail
              (λ _, Sample.processor_env false 0.75%float false)
              (Sample.sqs_record "order-001-item-3")
              (Sample.item_message "order-001-item-3")
              (Sample.world_with "order-001-item-3" "PENDING")
              eq_refl eq_refl) as (Halways & Hrejected & _).
  split.
  - apply Halways.
  - apply Hrejected.
    + intros [H | H]; vm_compute in H; discriminate H.
    + reflexivity.
Defined.

(** ** DLQProcessor *)

Lemma processDLQRecord_Json env record m w :
  body record = Json m →
  DLQProcessor.processDLQRecord env record w =
  let key := (orderId m, itemId m) in
  let assignments :=
    [("itemStatus", AttrS "FAILED");
     ("failedAt", AttrS (DLQProcessor.toISOString env))] in
  let w1 := record_event (EvUpdate key assignments) w in
  if DLQProcessor.updateFails env then (Fulfilled tt, w1)
  else (Fulfilled tt,
        with_OrderItemsTable
          (λ t, <[key := dynamoDB.assign
                           (default (dynamoDB.key_attributes key) (t !! key))
                           assignments]> t) w1).
Proof.
  intros Hbody.
  unfold DLQProcessor.processDLQRecord, DLQProcessor.processFailedItem,
    DLQProcessor.updateItemStatusToFailed, try_catch, mbind, Promise_bind,
    await, dynamoDB.UpdateCommand.
  rewrite Hbody. cbn [JSON_parse resolve].
  destruct (DLQProcessor.updateFails env); reflexivity.
Qed.

Lemma processDLQRecord_Malformed env record raw w :
  body record = Malformed raw →
  DLQProcessor.processDLQRecord env record w = (Fulfilled tt, w).
Proof.
  intros Hbody.
  unfold DLQProcessor.processDLQRecord, try_catch, mbind, Promise_bind, await.
  rewrite Hbody. reflexivity.
Qed.

Lemma DLQProcessor_handler_single envs record w :
  DLQProcessor.handler envs [record] w =
  (Fulfilled tt, (DLQProcessor.processDLQRecord (envs 0) record w).2).
Proof.
  unfold DLQProcessor.handler, mbind, Promise_bind, await. simpl.
  by destruct (DLQProcessor.processDLQRecord (envs 0) record w) as [r w'].
Qed.

Lemma DLQProcessor_handler_resolves envs event w :
  (DLQProcessor.handler envs event w).1 = Fulfilled tt.
Proof.
  unfold DLQProcessor.handler, mbind, Promise_bind, await.
  destruct (Promise_allSettled_fulfilled
    (imap (λ i record, DLQProcessor.processDLQRecord (envs i) record) event) w)
    as [l Hl].
  destruct (Promise_allSettled _ w) as [r w']. simpl in Hl. by subst r.
Qed.

Lemma DLQProcessor_handler_invariant (P : World → Prop) envs event :
  (∀ env record w, P w → P (DLQProcessor.processDLQRecord env record w).2) →
  ∀ w, P w → P (DLQProcessor.handler envs event w).2.
Proof.
  intros Hstep w Hw.
  assert (P (Promise_allSettled
    (imap (λ i record, DLQProcessor.processDLQRecord (envs i) record) event)
    w).2) as Hall.
  { apply Promise_allSettled_invariant; [| done].
    intros p v Hp. apply elem_of_lookup_imap in Hp as (i & r & -> & _).
    by apply Hstep. }
  unfold DLQProcessor.handler, mbind, Promise_bind, await.
  destruct (Promise_allSettled _ w) as [[l | e] w']; exact Hall.
Qed.

Lemma assign_FAILED_status (item : Item) (failedAt : string) :
  dynamoDB.assign item
    [("itemStatus", AttrS "FAILED"); ("failedAt", AttrS failedAt)]
    !! "itemStatus" = Some FAILED.
Proof.
  unfold dynamoDB.assign. simpl.
  rewrite lookup_insert_ne by done. apply lookup_insert_eq.
Qed.

Lemma assign_FAILED_failedAt (item : Item) (failedAt : string) :
  dynamoDB.assign item
    [("itemStatus", AttrS "FAILED"); ("failedAt", AttrS failedAt)]
    !! "failedAt" = Some (AttrS failedAt).
Proof. unfold dynamoDB.assign. simpl. apply lookup_insert_eq. Qed.

(** The status of an item after [processDLQRecord] is the one it had, or
    FAILED. *)
Lemma processDLQRecord_status env record key w :
  itemStatus_of (DLQProcessor.processDLQRecord env record w).2 key
    = itemStatus_of w key
  ∨ itemStatus_of (DLQProcessor.processDLQRecord env record w).2 key
    = Some FAILED.
Proof.
  destruct (body record) as [m | raw] eqn:Hbody.
  2: { rewrite (processDLQRecord_Malformed _ _ raw) by done. by left. }
  rewrite (processDLQRecord_Json _ _ m) by done. cbn zeta.
  destruct (DLQProcessor.updateFails env); [by left |].
  unfold itemStatus_of. simpl.
  destruct (decide ((orderId m, itemId m) = key)) as [<- | Hne].
  - right. rewrite lookup_insert_eq. simpl. apply assign_FAILED_status.
  - left. by rewrite lookup_insert_ne.
Qed.

Lemma Promise_allSettled_app {A} (ps qs : list (Promise A)) w :
  (Promise_allSettled (ps ++ qs) w).2
  = (Promise_allSettled qs (Promise_allSettled ps w).2).2.
Proof.
  revert w. induction ps as [| p ps IH]; intros w; [reflexivity |].
  simpl. destruct (p w) as [r w1]. specialize (IH w1).
  destruct (Promise_allSettled (ps ++ qs) w1) as [rs w2].
  destruct (Promise_allSettled ps w1) as [rs' w2']. simpl in *.
  rewrite IH. by destruct (Promise_allSettled qs w2').
Qed.

Lemma DLQProcessor_handler_world envs event w :
  (DLQProcessor.handler envs event w).2 =
  (Promise_allSettled
     (imap (λ i record, DLQProcessor.processDLQRecord (envs i) record) event)
     w).2.
Proof.
  unfold DLQProcessor.handler, mbind, Promise_bind, await.
  by destruct (Promise_allSettled _ w) as [[l | e] w'].
Qed.

(** An item marked by the Dead-Letter Handler stays marked under
    [processDLQRecord]. *)
Lemma processDLQRecord_keeps_marked env record key w :
  (itemStatus_of w key = Some FAILED ∧
   ∃ failedAt, attribute (OrderItemsTable w) key "failedAt"
               = Some (AttrS failedAt)) →
  itemStatus_of (DLQProcessor.processDLQRecord env record w).2 key = Some FAILED ∧
  ∃ failedAt,
    attribute (OrderItemsTable (DLQProcessor.processDLQRecord env record w).2)
      key "failedAt" = Some (AttrS failedAt).
Proof.
  intros [Hstatus [failedAt HfailedAt]].
  destruct (body record) as [m | raw] eqn:Hbody.
  2: { rewrite (processDLQRecord_Malformed _ _ raw) by done. eauto. }
  rewrite (processDLQRecord_Json _ _ m) by done. cbn zeta.
  destruct (DLQProcessor.updateFails env); [eauto |].
  unfold itemStatus_of, attribute in *. simpl.
  destruct (decide ((orderId m, itemId m) = key)) as [<- | Hne].
  - rewrite lookup_insert_eq. simpl. split; [apply assign_FAILED_status |].
    eexists. apply assign_FAILED_failedAt.
  - rewrite lookup_insert_ne by done. eauto.
Qed.

Lemma processDLQRecord_marks env record m w :
  body record = Json m →
  DLQProcessor.updateFails env = false →
  itemStatus_of (DLQProcessor.processDLQRecord env record w).2
    (orderId m, itemId m) = Some FAILED ∧
  attribute (OrderItemsTable (DLQProcessor.processDLQRecord env record w).2)
    (orderId m, itemId m) "failedAt"
  = Some (AttrS (DLQProcessor.toISOString env)).
Proof.
  intros Hbody Hupd. rewrite (processDLQRecord_Json _ _ m) by done.
  cbn zeta. rewrite Hupd. unfold itemStatus_of, attribute. simpl.
  rewrite lookup_insert_eq. simpl.
  split; [apply assign_FAILED_status | apply assign_FAILED_failedAt].
Qed.

(** (C5) The Dead-Letter Handler never propagates a failure. Whatever the
    batch and whatever fails, the handler resolves, so every message is
    acknowledged. For every record of the batch whose write succeeds, the
    item has status FAILED and a failedAt timestamp when the handler is done;
    in a batch of one, that timestamp is the time of the write. When every
    write of the batch throws, the handler still resolves and the items
    table is as before. *)
Theorem dead_letter_handler_never_rejects
    (envs : nat → DLQProcessor.Env) (event : list SQSRecord) (w : World) :
  (DLQProcessor.handler envs event w).1 = Fulfilled tt ∧
  (∀ i record m,
     event !! i = Some record →
     body record = Json m →
     DLQProcessor.updateFails (envs i) = false →
     itemStatus_of (DLQProcessor.handler envs event w).2
       (orderId m, itemId m) = Some FAILED ∧
     ∃ failedAt,
       attribute (OrderItemsTable (DLQProcessor.handler envs event w).2)
         (orderId m, itemId m) "failedAt" = Some (AttrS failedAt)) ∧
  (∀ record m,
     event = [record] →
     body record = Json m →
     DLQProcessor.updateFails (envs 0) = false →
     attribute (OrderItemsTable (DLQProcessor.handler envs event w).2)
       (orderId m, itemId m) "failedAt"
     = Some (AttrS (DLQProcessor.toISOString (envs 0)))) ∧
  ((∀ i, i < length event → DLQProcessor.updateFails (envs i) = true) →
   OrderItemsTable (DLQProcessor.handler envs event w).2 = OrderItemsTable w).
Proof.
  split; [apply DLQProcessor_handler_resolves |]. split; [| split].
  - intros i record m Hi Hbody Hupd.
    rewrite DLQProcessor_handler_world.
    rewrite <- (take_drop_middle event i record Hi), imap_app.
    cbn [imap]. rewrite Promise_allSettled_app.
    assert (length (take i event) = i) as Hlen.
    { apply length_take_le. apply lookup_lt_Some in Hi. lia. }
    rewrite Hlen, Nat.add_0_r.
    set (w0 := (Promise_allSettled _ w).2). cbn [Promise_allSettled].
    pose proof (processDLQRecord_marks (envs i) record m w0 Hbody Hupd)
      as [Hstatus HfailedAt].
    destruct (DLQProcessor.processDLQRecord (envs i) record w0) as [r w1].
    cbn [snd] in Hstatus, HfailedAt.
    assert (∀ ps : list (Promise unit),
              (∀ p, p ∈ ps → ∃ env r', p = DLQProcessor.processDLQRecord env r') →
              itemStatus_of (Promise_allSettled ps w1).2 (orderId m, itemId m)
              = Some FAILED ∧
              ∃ failedAt,
                attribute (OrderItemsTable (Promise_allSettled ps w1).2)
                  (orderId m, itemId m) "failedAt" = Some (AttrS failedAt))
      as Hrest.
    { intros ps Hps.
      apply (Promise_allSettled_invariant
               (λ v, itemStatus_of v (orderId m, itemId m) = Some FAILED ∧
                     ∃ failedAt,
                       attribute (OrderItemsTable v) (orderId m, itemId m)
                         "failedAt" = Some (AttrS failedAt))); [| eauto].
      intros p v Hp Hv. destruct (Hps p Hp) as (env & r' & ->).
      by apply processDLQRecord_keeps_marked. }
    match goal with
    | |- context [Promise_allSettled ?ps w1] => specialize (Hrest ps)
    end.
    destruct (Promise_allSettled _ w1) as [rs w2]. cbn [snd] in *.
    apply Hrest. intros p Hp.
    apply elem_of_lookup_imap in Hp as (j & r' & -> & _). eauto.
  - intros record m -> Hbody Hupd. rewrite DLQProcessor_handler_single.
    cbn [snd]. by apply processDLQRecord_marks.
  - intros Hall. rewrite DLQProcessor_handler_world.
    apply (Promise_allSettled_invariant
             (λ v, OrderItemsTable v = OrderItemsTable w)); [| done].
    intros p v Hp Hv.
    apply elem_of_lookup_imap in Hp as (i & r & -> & Hi).
    apply lookup_lt_Some in Hi. specialize (Hall i Hi).
    destruct (body r) as [m | raw] eqn:Hbody.
    + rewrite (processDLQRecord_Json _ _ m) by done. cbn zeta.
      by rewrite Hall.
    + by rewrite (processDLQRecord_Malformed _ _ raw).
Qed.

Lemma dead_letter_handler_never_rejects_witness :
  (DLQProcessor.handler (λ _, Sample.dlq_env false)
     [Sample.sqs_record "order-001-item-3"]
     (Sample.world_with "order-001-item-3" "PENDING")).1 = Fulfilled tt ∧
  itemStatus_of
    (DLQProcessor.handler (λ _, Sample.dlq_env false)
       [Sample.sqs_record "order-001-item-3"]
       (Sample.world_with "order-001-item-3" "PENDING")).2
    ("order-001", "order-001-item-3") = Some FAILED ∧
  attribute
    (OrderItemsTable
       (DLQProcessor.handler (λ _, Sample.dlq_env false)
          [Sample.sqs_record "order-001-item-3"]
          (Sample.world_with "order-001-item-3" "PENDING")).2)
    ("order-001", "order-001-item-3") "failedAt"
  = Some (AttrS "2025-01-01T00:02:00.000Z").
Proof.
  destruct (dead_letter_handler_never_rejects
              (λ _, Sample.dlq_env false)
              [Sample.sqs_record "order-001-item-3"]
              (Sample.world_with "order-001-item-3" "PENDING"))
    as (Hresolves & Hmarked & Hstamp & _).
  split; [exact Hresolves |]. split.
  - apply (Hmarked 0 (Sample.sqs_record "order-001-item-3")
                   (Sample.item_message "order-001-item-3")); reflexivity.
  - apply (Hstamp (Sample.sqs_record "order-001-item-3")
                  (Sample.item_message "order-001-item-3")); reflexivity.
Defined.

(** ** Terminal statuses *)

(** A FAILED item stays FAILED under [processDLQRecord]. *)
Lemma processDLQRecord_keeps_FAILED env record key w :
  itemStatus_of w key = Some FAILED →
  itemStatus_of (DLQProcessor.processDLQRecord env record w).2 key
  = Some FAILED.
Proof.
  intros H. destruct (processDLQRecord_status env record key w) as [-> | ->];
    done.
Qed.

Lemma processDLQRecord_keeps_terminal env record key w :
  terminal (itemStatus_of w key) →
  terminal (itemStatus_of (DLQProcessor.processDLQRecord env record w).2 key).
Proof.
  intros H. destruct (processDLQRecord_status env record key w) as [-> | ->];
    [done | by right].
Qed.

(** (C1, as the code has it) Once an item has status PROCESSED or FAILED, no
    batch of the Item Processor changes that status. The Dead-Letter Handler
    marks FAILED without looking at the item: no batch of it changes the
    status of a FAILED item, and a terminal item stays terminal under it,
    but a PROCESSED item may become FAILED. *)
Theorem terminal_status_monotone
    (w : World) (key : Key) (status : AttributeValue) :
  terminal (Some status) →
  itemStatus_of w key = Some status →
  (∀ envs event,
     itemStatus_of (OrderProcessor.handler envs event w).2 key = Some status) ∧
  (∀ envs event,
     status = FAILED →
     itemStatus_of (DLQProcessor.handler envs event w).2 key = Some FAILED) ∧
  (∀ envs event,
     terminal (itemStatus_of (DLQProcessor.handler envs event w).2 key)).
Proof.
  intros Hterm Hkey. split; [| split].
  - intros envs event.
    apply (OrderProcessor_handler_invariant
             (λ v, itemStatus_of v key = Some status)); [| done].
    intros env record v Hv. by apply processRecord_keeps_terminal.
  - intros envs event ->.
    apply (DLQProcessor_handler_invariant
             (λ v, itemStatus_of v key = Some FAILED)); [| done].
    intros env record v Hv. by apply processDLQRecord_keeps_FAILED.
  - intros envs event.
    apply (DLQProcessor_handler_invariant
             (λ v, terminal (itemStatus_of v key))); [| by rewrite Hkey].
    intros env record v Hv. by apply processDLQRecord_keeps_terminal.
Qed.

Lemma terminal_status_monotone_witness :
  itemStatus_of
    (OrderProcessor.handler (λ _, Sample.processor_env false 0.9%float false)
       [Sample.sqs_record "order-001-item-0"]
       (Sample.world_with "order-001-item-0" "PROCESSED")).2
    ("order-001", "order-001-item-0") = Some PROCESSED.
Proof.
  apply (terminal_status_monotone
           (Sample.world_with "order-001-item-0" "PROCESSED")
           ("order-001", "order-001-item-0") PROCESSED).
  - left. reflexivity.
  - reflexivity.
Defined.

(** (C1, as stated, fails.) A Dead-Letter Queue message for an item that is
    already PROCESSED: the handler sets the item to FAILED. *)
Lemma processed_item_marked_failed_by_dead_letter_handler :
  itemStatus_of (Sample.world_with "order-001-item-1" "PROCESSED")
    ("order-001", "order-001-item-1") = Some PROCESSED ∧
  itemStatus_of
    (DLQProcessor.handler (λ _, Sample.dlq_env false)
       [Sample.sqs_record "order-001-item-1"]
       (Sample.world_with "order-001-item-1" "PROCESSED")).2
    ("order-001", "order-001-item-1") = Some FAILED ∧
  Some FAILED ≠ Some PROCESSED.
Proof. split; [| split]; [vm_compute; reflexivity .. | discriminate]. Qed.

(** ** Strings built by the template literals *)

Lemma hyphen_free_string_of_uint d :
  Js.hyphen_free (NilEmpty.string_of_uint d) = true.
Proof. induction d; simpl; auto. Qed.

Lemma hyphen_free_NilZero d : Js.hyphen_free (NilZero.string_of_uint d) = true.
Proof.
  unfold NilZero.string_of_uint. destruct d; try reflexivity;
    apply hyphen_free_string_of_uint.
Qed.

Lemma hyphen_free_index n : Js.hyphen_free (Js.index_toString n) = true.
Proof. apply hyphen_free_NilZero. Qed.

Lemma hyphen_free_millis n : Js.hyphen_free (Js.millis_toString n) = true.
Proof. apply hyphen_free_NilZero. Qed.

Lemma NilZero_string_of_uint_inj d d' :
  d ≠ Decimal.Nil → d' ≠ Decimal.Nil →
  NilZero.string_of_uint d = NilZero.string_of_uint d' → d = d'.
Proof.
  intros Hd Hd' Heq.
  pose proof (NilZero.usu d Hd) as H. rewrite Heq, (NilZero.usu d' Hd') in H.
  congruence.
Qed.

Lemma Nat_to_uint_nonnil n : Nat.to_uint n ≠ Decimal.Nil.
Proof.
  intros H. pose proof (DecimalNat.Unsigned.of_to n) as Hn.
  rewrite H in Hn. simpl in Hn. subst n. discriminate H.
Qed.

Lemma N_to_uint_nonnil n : N.to_uint n ≠ Decimal.Nil.
Proof.
  intros H. pose proof (DecimalN.Unsigned.of_to n) as Hn.
  rewrite H in Hn. simpl in Hn. subst n. discriminate H.
Qed.

Lemma index_toString_inj n n' :
  Js.index_toString n = Js.index_toString n' → n = n'.
Proof.
  intros H. apply DecimalNat.Unsigned.to_uint_inj.
  apply NilZero_string_of_uint_inj; auto using Nat_to_uint_nonnil.
Qed.

Lemma millis_toString_inj n n' :
  Js.millis_toString n = Js.millis_toString n' → n = n'.
Proof.
  intros H. apply DecimalN.Unsigned.to_uint_inj.
  apply NilZero_string_of_uint_inj; auto using N_to_uint_nonnil.
Qed.

Lemma append_empty s : "" +:+ s = s.
Proof. reflexivity. Qed.

Lemma append_String c a s : String c a +:+ s = String c (a +:+ s).
Proof. reflexivity. Qed.

Lemma append_assoc_r s1 s2 s3 : (s1 +:+ s2) +:+ s3 = s1 +:+ s2 +:+ s3.
Proof.
  induction s1 as [| c s1 IH]; [reflexivity |].
  by rewrite !append_String, IH.
Qed.

(** Two strings that agree up to their first hyphen and after it. *)
Lemma split_at_hyphen a a' r r' :
  Js.hyphen_free a = true → Js.hyphen_free a' = true →
  a +:+ "-" +:+ r = a' +:+ "-" +:+ r' → a = a' ∧ r = r'.
Proof.
  revert a'. induction a as [| c a IH]; intros [| c' a'] Ha Ha' Heq;
    simpl in Ha, Ha';
    repeat (rewrite append_empty in Heq || rewrite append_String in Heq).
  - by injection Heq as ->.
  - exfalso. injection Heq as <- _. discriminate Ha'.
  - exfalso. injection Heq as -> _. discriminate Ha.
  - injection Heq as -> Heq.
    apply andb_prop in Ha as [_ Ha]. apply andb_prop in Ha' as [_ Ha'].
    destruct (IH a' Ha Ha' Heq) as [-> ->]. done.
Qed.

Lemma hyphen_free_append_hyphen x y : Js.hyphen_free (x +:+ "-" +:+ y) = false.
Proof.
  induction x as [| c x IH]; [reflexivity |].
  rewrite append_String. simpl. rewrite IH. apply andb_false_r.
Qed.

(** Two strings that agree up to their last hyphen and after it. *)
Lemma split_at_last_hyphen a a' b b' :
  Js.hyphen_free b = true → Js.hyphen_free b' = true →
  a +:+ "-" +:+ b = a' +:+ "-" +:+ b' → a = a' ∧ b = b'.
Proof.
  intros Hb Hb'. revert a'.
  induction a as [| c a IH]; intros [| c' a'] Heq;
    repeat (rewrite append_empty in Heq || rewrite append_String in Heq).
  - by injection Heq as ->.
  - exfalso. injection Heq as _ Heq.
    pose proof (hyphen_free_append_hyphen a' b') as Hfalse.
    change (a' +:+ "-" +:+ b') with (a' +:+ String "-" b') in Hfalse.
    congruence.
  - exfalso. injection Heq as _ Heq.
    pose proof (hyphen_free_append_hyphen a b) as Hfalse.
    change (a +:+ "-" +:+ b) with (a +:+ String "-" b) in Hfalse.
    congruence.
  - injection Heq as -> Heq. destruct (IH a' Heq) as [-> ->]. done.
Qed.

Lemma list_ascii_of_append s1 s2 :
  list_ascii_of_string (s1 +:+ s2)
  = (list_ascii_of_string s1 ++ list_ascii_of_string s2)%list.
Proof.
  induction s1 as [| c s1 IH]; [reflexivity |].
  rewrite append_String. simpl. by rewrite IH.
Qed.

Lemma append_inv_tail a a' c : a +:+ c = a' +:+ c → a = a'.
Proof.
  intros H. apply (f_equal list_ascii_of_string) in H.
  rewrite !list_ascii_of_append in H. apply app_inv_tail in H.
  rewrite <- (string_of_list_ascii_of_string a),
          <- (string_of_list_ascii_of_string a').
  by rewrite H.
Qed.

(** The item id tells the position of the item in its order. *)
Lemma itemId_of_inj o k k' :
  OrderManager.itemId_of o k = OrderManager.itemId_of o k' → k = k'.
Proof.
  unfold OrderManager.itemId_of. intros H.
  apply index_toString_inj. by do 2 apply String.app_inj in H.
Qed.

(** For one order, the deduplication id tells the position of the item and
    the reading of the clock, and nothing else distinguishes two ids. *)
Lemma deduplicationId_inj o k t k' t' :
  OrderManager.deduplicationId (OrderManager.itemId_of o k) t k
  = OrderManager.deduplicationId (OrderManager.itemId_of o k') t' k' →
  k = k' ∧ t = t'.
Proof.
  unfold OrderManager.deduplicationId, OrderManager.itemId_of. intros H.
  rewrite !append_assoc_r in H.
  do 2 apply String.app_inj in H.
  apply split_at_hyphen in H as [Hk H]; [| apply hyphen_free_index ..].
  apply split_at_hyphen in H as [Ht _]; [| apply hyphen_free_millis ..].
  split; [by apply index_toString_inj | by apply millis_toString_inj].
Qed.

(** A deduplication id tells the order id, the position of the item and the
    reading of the clock it was made of. *)
Lemma deduplicationId_inj_order o k t o' k' t' :
  OrderManager.deduplicationId (OrderManager.itemId_of o k) t k
  = OrderManager.deduplicationId (OrderManager.itemId_of o' k') t' k' →
  o = o' ∧ k = k' ∧ t = t'.
Proof.
  assert (∀ x n i,
            OrderManager.deduplicationId x n i
            = (x +:+ "-" +:+ Js.millis_toString n) +:+ "-"
              +:+ Js.index_toString i) as Hshape.
  { intros x n i. unfold OrderManager.deduplicationId.
    by rewrite !append_assoc_r. }
  rewrite !Hshape. intros H.
  apply split_at_last_hyphen in H as [H Hk]; [| apply hyphen_free_index ..].
  apply split_at_last_hyphen in H as [H Ht]; [| apply hyphen_free_millis ..].
  apply index_toString_inj in Hk as <-.
  apply millis_toString_inj in Ht as <-.
  unfold OrderManager.itemId_of in H. rewrite <- !append_assoc_r in H.
  apply append_inv_tail in H. apply append_inv_tail in H. done.
Qed.

(** ** OrderManager *)

(** What [addOrderToDatabase] does, branch by branch. *)
Lemma addOrderToDatabase_eq env o u items st w :
  OrderManager.addOrderToDatabase env o u items st w =
  let ts := OrderManager.toISOString env in
  let records := OrderManager.orderItemRecords_of o items ts in
  let puts :=
    map (λ r, ((OrderManager.rec_orderId r, OrderManager.rec_itemId r),
               OrderManager.to_item r)) records in
  let order := OrderManager.orderRecord o u items st ts in
  let w1 := record_event (EvPut order) w in
  if OrderManager.putFails env then (Rejected DynamoDBError, w1)
  else
    let w2 := record_event (EvBatchWrite puts.*2)
                (with_OrdersTable (λ t, <[(o, ts) := order]> t) w1) in
    if OrderManager.batchWriteFails env then (Rejected DynamoDBError, w2)
    else (Fulfilled records,
          with_OrderItemsTable (dynamoDB.put_all puts) w2).
Proof.
  unfold OrderManager.addOrderToDatabase, try_catch, mbind, Promise_bind,
    await, dynamoDB.PutCommand, dynamoDB.BatchWriteCommand.
  destruct (OrderManager.putFails env); [reflexivity |].
  destruct (OrderManager.batchWriteFails env); reflexivity.
Qed.

(** The sends of a batch of messages: every send is attempted, in order; the
    tables are not touched; the queue receives the messages whose send did
    not fail; the whole rejects when a send fails. *)
Lemma Promise_all_sends {R} (fails : nat → bool)
    (command : nat → R → SendMessageCommand) (records : list R) w :
  OrdersTable
    (Promise_all (imap (λ i r, sqs.send (fails i) (command i r)) records) w).2
    = OrdersTable w ∧
  OrderItemsTable
    (Promise_all (imap (λ i r, sqs.send (fails i) (command i r)) records) w).2
    = OrderItemsTable w ∧
  trace
    (Promise_all (imap (λ i r, sqs.send (fails i) (command i r)) records) w).2
    = (trace w ++ imap (λ i r, EvSend (command i r)) records)%list ∧
  ((∀ i, i < length records → fails i = false) →
   (∃ l, (Promise_all
            (imap (λ i r, sqs.send (fails i) (command i r)) records) w).1
         = Fulfilled l) ∧
   OrdersFifoQueue
     (Promise_all
        (imap (λ i r, sqs.send (fails i) (command i r)) records) w).2
     = (OrdersFifoQueue w ++ imap command records)%list) ∧
  ((∃ i, i < length records ∧ fails i = true) →
   (Promise_all (imap (λ i r, sqs.send (fails i) (command i r)) records) w).1
   = Rejected SQSError).
Proof.
  revert fails command w.
  induction records as [| r records IH]; intros fails command w.
  - simpl. rewrite !app_nil_r. repeat split; try done.
    + by eexists.
    + intros (i & Hi & _). lia.
  - cbn [imap Promise_all length].
    specialize (IH (fails ∘ S) (command ∘ S)).
    unfold compose in *. cbn beta in *.
    destruct (sqs.send (fails 0) (command 0 r) w) as [r0 w1] eqn:Hsend.
    specialize (IH w1).
    destruct (Promise_all _ w1) as [rs w2].
    destruct IH as (Horders & Hitems & Htrace & Hok & Hrej).
    unfold sqs.send in Hsend. cbn [fst snd] in *.
    destruct (fails 0) eqn:Hfails; injection Hsend as <- <-; simpl in *.
    + split; [done |]. split; [done |]. split.
      { rewrite Htrace, <- app_assoc. reflexivity. }
      split.
      { intros Hall. specialize (Hall 0 ltac:(lia)). congruence. }
      intros _. reflexivity.
    + split; [done |]. split; [done |]. split.
      { rewrite Htrace, <- app_assoc. reflexivity. }
      split.
      { intros Hall. destruct Hok as [[l Hl] Hqueue].
        { intros i Hi. apply Hall. lia. }
        subst rs. split; [by eexists |].
        rewrite Hqueue, <- app_assoc. reflexivity. }
      intros (i & Hi & Hi'). destruct i as [| i]; [congruence |].
      rewrite Hrej; [done |]. exists i. split; [lia | done].
Qed.

Lemma OrderManager_handler_eq env event w :
  OrderManager.handler env event w =
  match OrderManager.addOrderToDatabase env (OrderManager.orderId event)
          (OrderManager.userId event) (OrderManager.orderItems event)
          (OrderManager.orderStatus event) w with
  | (Rejected e, w') => (Rejected e, w')
  | (Fulfilled records, w') =>
      match Promise_all
              (imap (λ index itemMessage,
                       sqs.send (OrderManager.sendFails env index)
                         (OrderManager.message env index itemMessage))
                    records) w' with
      | (Fulfilled _, w'') =>
          (Fulfilled {| OrderManager.statusCode := 200;
                        OrderManager.body_message :=
                          "Orders processed successfully" |}, w'')
      | (Rejected e, w'') => (Rejected e, w'')
      end
  end.
Proof.
  unfold OrderManager.handler, mbind, Promise_bind, await.
  destruct (OrderManager.addOrderToDatabase _ _ _ _ _ w) as [[records | e] w'];
    [| reflexivity].
  destruct (Promise_all _ w') as [[l | e] w'']; reflexivity.
Qed.

(** *** The batch write *)

Lemma put_all_lookup_notin (puts : list (Key * Item)) (t : Table) key :
  key ∉ puts.*1 → dynamoDB.put_all puts t !! key = t !! key.
Proof.
  revert t. induction puts as [| [k v] puts IH]; intros t Hnotin; [done |].
  unfold dynamoDB.put_all in *. simpl in *.
  apply not_elem_of_cons in Hnotin as [Hne Hnotin].
  rewrite IH by done. by apply lookup_insert_ne.
Qed.

Lemma put_all_lookup (puts : list (Key * Item)) (t : Table) i key item :
  NoDup puts.*1 → puts !! i = Some (key, item) →
  dynamoDB.put_all puts t !! key = Some item.
Proof.
  revert t i. induction puts as [| [k v] puts IH]; intros t i Hnodup Hi;
    [done |].
  simpl in Hnodup. apply NoDup_cons in Hnodup as [Hnotin Hnodup].
  destruct i as [| i]; simpl in Hi.
  - injection Hi as -> ->.
    change (dynamoDB.put_all ((key, item) :: puts) t)
      with (dynamoDB.put_all puts (<[key := item]> t)).
    rewrite put_all_lookup_notin by done. apply lookup_insert_eq.
  - change (dynamoDB.put_all ((k, v) :: puts) t)
      with (dynamoDB.put_all puts (<[k := v]> t)).
    by apply (IH _ i).
Qed.

Lemma orderItemRecords_lookup o items ts k item :
  items !! k = Some item →
  OrderManager.orderItemRecords_of o items ts !! k =
  Some {| OrderManager.rec_orderId := o;
          OrderManager.rec_itemId := OrderManager.itemId_of o k;
          OrderManager.rec_itemDetail := OrderManager.itemDetail item;
          OrderManager.rec_quantity := OrderManager.quantity item;
          OrderManager.rec_price := OrderManager.price item;
          OrderManager.rec_itemStatus := "PENDING";
          OrderManager.rec_timestamp := ts |}.
Proof.
  intros H. unfold OrderManager.orderItemRecords_of.
  by rewrite list_lookup_imap, H.
Qed.

Lemma orderItemRecords_length o items ts :
  length (OrderManager.orderItemRecords_of o items ts) = length items.
Proof. apply length_imap. Qed.

Lemma orderItemRecords_key o items ts k r :
  OrderManager.orderItemRecords_of o items ts !! k = Some r →
  OrderManager.rec_orderId r = o ∧
  OrderManager.rec_itemId r = OrderManager.itemId_of o k.
Proof.
  unfold OrderManager.orderItemRecords_of. rewrite list_lookup_imap.
  destruct (items !! k); [| done]. by intros [= <-].
Qed.

(** The keys of the items of one order are pairwise distinct. *)
Lemma puts_keys_NoDup o items ts :
  NoDup (map (λ r, ((OrderManager.rec_orderId r, OrderManager.rec_itemId r),
                    OrderManager.to_item r))
             (OrderManager.orderItemRecords_of o items ts)).*1.
Proof.
  apply NoDup_alt. intros i j key Hi Hj.
  rewrite !list_lookup_fmap in Hi, Hj.
  destruct (OrderManager.orderItemRecords_of o items ts !! i) as [ri |] eqn:Hri;
    [| done].
  destruct (OrderManager.orderItemRecords_of o items ts !! j) as [rj |] eqn:Hrj;
    [| done].
  apply orderItemRecords_key in Hri as [Hoi Hii].
  apply orderItemRecords_key in Hrj as [Hoj Hij].
  simpl in Hi, Hj. rewrite Hoi, Hii in Hi. rewrite Hoj, Hij in Hj.
  apply (itemId_of_inj o). congruence.
Qed.

(** After the batch write every item of the order is in the items table,
    under the key made of the order id and the item id of its position. *)
Lemma put_all_orderItemRecords o items ts t k item :
  items !! k = Some item →
  dynamoDB.put_all
    (map (λ r, ((OrderManager.rec_orderId r, OrderManager.rec_itemId r),
                OrderManager.to_item r))
         (OrderManager.orderItemRecords_of o items ts)) t
    !! (o, OrderManager.itemId_of o k)
  = Some (OrderManager.to_item
            {| OrderManager.rec_orderId := o;
               OrderManager.rec_itemId := OrderManager.itemId_of o k;
               OrderManager.rec_itemDetail := OrderManager.itemDetail item;
               OrderManager.rec_quantity := OrderManager.quantity item;
               OrderManager.rec_price := OrderManager.price item;
               OrderManager.rec_itemStatus := "PENDING";
               OrderManager.rec_timestamp := ts |}).
Proof.
  intros Hk. apply (put_all_lookup _ _ k); [apply puts_keys_NoDup |].
  rewrite list_lookup_fmap, (orderItemRecords_lookup _ _ _ _ item) by done.
  reflexivity.
Qed.

(** *** The handler, case by case *)

Lemma handler_put_fails env event w :
  OrderManager.putFails env = true →
  OrderManager.handler env event w =
  (Rejected DynamoDBError,
   record_event
     (EvPut (OrderManager.orderRecord (OrderManager.orderId event)
               (OrderManager.userId event) (OrderManager.orderItems event)
               (OrderManager.orderStatus event) (OrderManager.toISOString env)))
     w).
Proof.
  intros Hput. rewrite OrderManager_handler_eq, addOrderToDatabase_eq.
  cbn zeta. by rewrite Hput.
Qed.

Lemma handler_batch_fails env event w :
  OrderManager.putFails env = false →
  OrderManager.batchWriteFails env = true →
  OrderManager.handler env event w =
  (Rejected DynamoDBError,
   record_event
     (EvBatchWrite
        (map (λ r, ((OrderManager.rec_orderId r, OrderManager.rec_itemId r),
                    OrderManager.to_item r))
             (OrderManager.orderItemRecords_of (OrderManager.orderId event)
                (OrderManager.orderItems event)
                (OrderManager.toISOString env))).*2)
     (with_OrdersTable
        (λ t, <[(OrderManager.orderId event, OrderManager.toISOString env) :=
                  OrderManager.orderRecord (OrderManager.orderId event)
                    (OrderManager.userId event) (OrderManager.orderItems event)
                    (OrderManager.orderStatus event)
                    (OrderManager.toISOString env)]> t)
        (record_event
           (EvPut (OrderManager.orderRecord (OrderManager.orderId event)
                     (OrderManager.userId event)
                     (OrderManager.orderItems event)
                     (OrderManager.orderStatus event)
                     (OrderManager.toISOString env)))
           w))).
Proof.
  intros Hput Hbatch. rewrite OrderManager_handler_eq, addOrderToDatabase_eq.
  cbn zeta. by rewrite Hput, Hbatch.
Qed.

(** When both writes succeed: the tables hold the order and its items, the
    sends come after the two writes, and the outcome is that of the sends. *)
Lemma handler_written env event w :
  OrderManager.putFails env = false →
  OrderManager.batchWriteFails env = false →
  OrdersTable (OrderManager.handler env event w).2
  = <[(OrderManager.orderId event, OrderManager.toISOString env) :=
        OrderManager.orderRecord (OrderManager.orderId event)
          (OrderManager.userId event) (OrderManager.orderItems event)
          (OrderManager.orderStatus event) (OrderManager.toISOString env)]>
      (OrdersTable w) ∧
  OrderItemsTable (OrderManager.handler env event w).2
  = dynamoDB.put_all
      (map (λ r, ((OrderManager.rec_orderId r, OrderManager.rec_itemId r),
                  OrderManager.to_item r))
           (OrderManager.orderItemRecords_of (OrderManager.orderId event)
              (OrderManager.orderItems event) (OrderManager.toISOString env)))
      (OrderItemsTable w) ∧
  trace (OrderManager.handler env event w).2
  = (trace w
     ++ [EvPut (OrderManager.orderRecord (OrderManager.orderId event)
                  (OrderManager.userId event) (OrderManager.orderItems event)
                  (OrderManager.orderStatus event)
                  (OrderManager.toISOString env));
         EvBatchWrite
           (map (λ r, ((OrderManager.rec_orderId r, OrderManager.rec_itemId r),
                       OrderManager.to_item r))
                (OrderManager.orderItemRecords_of (OrderManager.orderId event)
                   (OrderManager.orderItems event)
                   (OrderManager.toISOString env))).*2]
     ++ imap (λ i r, EvSend (OrderManager.message env i r))
          (OrderManager.orderItemRecords_of (OrderManager.orderId event)
             (OrderManager.orderItems event) (OrderManager.toISOString env)))%list ∧
  ((∀ i, i < length (OrderManager.orderItems event) →
         OrderManager.sendFails env i = false) →
   (OrderManager.handler env event w).1
   = Fulfilled {| OrderManager.statusCode := 200;
                  OrderManager.body_message :=
                    "Orders processed successfully" |} ∧
   OrdersFifoQueue (OrderManager.handler env event w).2
   = (OrdersFifoQueue w
      ++ imap (OrderManager.message env)
           (OrderManager.orderItemRecords_of (OrderManager.orderId event)
              (OrderManager.orderItems event)
              (OrderManager.toISOString env)))%list) ∧
  ((∃ i, i < length (OrderManager.orderItems event) ∧
         OrderManager.sendFails env i = true) →
   (OrderManager.handler env event w).1 = Rejected SQSError).
Proof.
  intros Hput Hbatch. rewrite OrderManager_handler_eq, addOrderToDatabase_eq.
  cbn zeta. rewrite Hput, Hbatch.
  match goal with
  | |- context [Promise_all (imap _ ?records) ?w3] =>
      destruct (Promise_all_sends (OrderManager.sendFails env)
                  (OrderManager.message env) records w3)
        as (Horders & Hitems & Htrace & Hok & Hrej)
  end.
  rewrite orderItemRecords_length in Hok, Hrej.
  destruct (Promise_all _ _) as [[l | e] w'']; cbn [fst snd] in *.
  - split; [done |]. split; [done |]. split.
    { rewrite Htrace. simpl. rewrite <- !app_assoc. reflexivity. }
    split.
    + intros Hall. split; [done |]. by destruct (Hok Hall) as [_ ->].
    + intros Hex. by apply Hrej in Hex.
  - split; [done |]. split; [done |]. split.
    { rewrite Htrace. simpl. rewrite <- !app_assoc. reflexivity. }
    split.
    + intros Hall. by destruct (Hok Hall) as [[l Hl] _].
    + intros Hex. apply Hrej in Hex. simpl. congruence.
Qed.

(** *** Attributes of the stored records *)

Ltac lookup_attribute :=
  repeat (rewrite lookup_insert_ne by done);
  first [apply lookup_insert_eq | apply lookup_singleton_eq].

Lemma totalValue_sum items :
  OrderManager.totalValue items =
  Js.sum (map (λ item,
                 (OrderManager.price item * OrderManager.quantity item)%float)
              items).
Proof.
  unfold OrderManager.totalValue, Js.sum. generalize 0%float.
  induction items as [| item items IH]; intros acc; [reflexivity |].
  simpl. apply IH.
Qed.

Lemma itemIds_of_records o items ts :
  OrderManager.rec_itemId <$> OrderManager.orderItemRecords_of o items ts
  = imap (λ i _, OrderManager.itemId_of o i) items.
Proof. unfold OrderManager.orderItemRecords_of. by rewrite fmap_imap. Qed.

(** (C8) What ingestion persists. When the two writes succeed, the Order
    record stored has totalItems equal to the number of items and totalValue
    equal to the sum over the items of price times quantity, and the k-th
    Item record is stored under the item id orderId-item-k, carries that id,
    the status PENDING, the timestamp of the Order record, and the detail,
    quantity and price of the k-th item. The item ids returned depend on the
    order id and the positions only, so ingesting the same order again gives
    the same item ids. *)
Theorem ingestion_persists_order_and_items
    (env : OrderManager.Env) (event : OrderManager.OrderEvent) (w : World) :
  OrderManager.putFails env = false →
  OrderManager.batchWriteFails env = false →
  attribute (OrdersTable (OrderManager.handler env event w).2)
    (OrderManager.orderId event, OrderManager.toISOString env) "totalItems"
  = Some (AttrN (Js.length_number (OrderManager.orderItems event))) ∧
  attribute (OrdersTable (OrderManager.handler env event w).2)
    (OrderManager.orderId event, OrderManager.toISOString env) "totalValue"
  = Some (AttrN (Js.sum
                   (map (λ item, (OrderManager.price item
                                  * OrderManager.quantity item)%float)
                        (OrderManager.orderItems event)))) ∧
  attribute (OrdersTable (OrderManager.handler env event w).2)
    (OrderManager.orderId event, OrderManager.toISOString env) "timestamp"
  = Some (AttrS (OrderManager.toISOString env)) ∧
  (∀ k item,
     OrderManager.orderItems event !! k = Some item →
     let id := OrderManager.orderId event +:+ "-item-" +:+ Js.index_toString k in
     let stored name :=
       attribute (OrderItemsTable (OrderManager.handler env event w).2)
         (OrderManager.orderId event, id) name in
     stored "itemId" = Some (AttrS id) ∧
     stored "itemStatus" = Some PENDING ∧
     stored "timestamp" = Some (AttrS (OrderManager.toISOString env)) ∧
     stored "orderId" = Some (AttrS (OrderManager.orderId event)) ∧
     stored "itemDetail" = Some (AttrS (OrderManager.itemDetail item)) ∧
     stored "quantity" = Some (AttrN (OrderManager.quantity item)) ∧
     stored "price" = Some (AttrN (OrderManager.price item))) ∧
  (∀ env' w' records records',
     (OrderManager.addOrderToDatabase env (OrderManager.orderId event)
        (OrderManager.userId event) (OrderManager.orderItems event)
        (OrderManager.orderStatus event) w).1 = Fulfilled records →
     (OrderManager.addOrderToDatabase env' (OrderManager.orderId event)
        (OrderManager.userId event) (OrderManager.orderItems event)
        (OrderManager.orderStatus event) w').1 = Fulfilled records' →
     OrderManager.rec_itemId <$> records = OrderManager.rec_itemId <$> records').
Proof.
  intros Hput Hbatch.
  destruct (handler_written env event w Hput Hbatch)
    as (Horders & Hitems & _).
  unfold attribute. rewrite Horders, Hitems, !lookup_insert_eq.
  split; [| split; [| split; [| split]]].
  - simpl. unfold OrderManager.orderRecord. lookup_attribute.
  - simpl. rewrite <- totalValue_sum. unfold OrderManager.orderRecord.
    lookup_attribute.
  - simpl. unfold OrderManager.orderRecord. lookup_attribute.
  - intros k item Hk. cbn zeta.
    change (OrderManager.orderId event +:+ "-item-" +:+ Js.index_toString k)
      with (OrderManager.itemId_of (OrderManager.orderId event) k).
    rewrite (put_all_orderItemRecords _ _ _ _ _ item) by done. simpl.
    unfold OrderManager.to_item. simpl.
    repeat split; lookup_attribute.
  - intros env' w' records records'.
    rewrite !addOrderToDatabase_eq. cbn zeta.
    destruct (OrderManager.putFails env), (OrderManager.batchWriteFails env),
      (OrderManager.putFails env'), (OrderManager.batchWriteFails env');
      simpl; try discriminate.
    intros [= <-] [= <-]. by rewrite !itemIds_of_records.
Qed.

(** The order of the README: one Laptop at 999.99. *)
Lemma ingestion_persists_order_and_items_witness :
  attribute
    (OrdersTable (OrderManager.handler (Sample.manager_env false false false)
                    Sample.order_001 Sample.empty_world).2)
    ("order-001", "2025-01-01T00:00:00.000Z") "totalItems"
  = Some (AttrN 1%float) ∧
  attribute
    (OrdersTable (OrderManager.handler (Sample.manager_env false false false)
                    Sample.order_001 Sample.empty_world).2)
    ("order-001", "2025-01-01T00:00:00.000Z") "totalValue"
  = Some (AttrN 999.99%float) ∧
  attribute
    (OrderItemsTable
       (OrderManager.handler (Sample.manager_env false false false)
          Sample.order_001 Sample.empty_world).2)
    ("order-001", "order-001-item-0") "itemStatus"
  = Some PENDING.
Proof.
  destruct (ingestion_persists_order_and_items
              (Sample.manager_env false false false) Sample.order_001
              Sample.empty_world eq_refl eq_refl)
    as (Hitems & Hvalue & _ & Hstored & _).
  split; [exact Hitems |]. split; [exact Hvalue |].
  destruct (Hstored 0 Sample.laptop eq_refl) as (_ & Hstatus & _).
  exact Hstatus.
Defined.

(** (C2, as the code has it) The write of an order is two requests, a put of
    the Order record and then a batch write of the Item records, and is not
    all-or-nothing. When the put fails, ingestion fails with nothing written
    and nothing enqueued. When the put succeeds and the batch write fails,
    ingestion fails with nothing enqueued and no Item record written, and the
    Order record stays in the store. When both succeed, the Order record and
    every Item record exist. *)
Theorem ingestion_write_outcomes
    (env : OrderManager.Env) (event : OrderManager.OrderEvent) (w : World) :
  (OrderManager.putFails env = true →
   (OrderManager.handler env event w).1 = Rejected DynamoDBError ∧
   OrdersTable (OrderManager.handler env event w).2 = OrdersTable w ∧
   OrderItemsTable (OrderManager.handler env event w).2 = OrderItemsTable w ∧
   OrdersFifoQueue (OrderManager.handler env event w).2 = OrdersFifoQueue w) ∧
  (OrderManager.putFails env = false →
   OrderManager.batchWriteFails env = true →
   (OrderManager.handler env event w).1 = Rejected DynamoDBError ∧
   OrdersTable (OrderManager.handler env event w).2
   = <[(OrderManager.orderId event, OrderManager.toISOString env) :=
         OrderManager.orderRecord (OrderManager.orderId event)
           (OrderManager.userId event) (OrderManager.orderItems event)
           (OrderManager.orderStatus event) (OrderManager.toISOString env)]>
       (OrdersTable w) ∧
   OrderItemsTable (OrderManager.handler env event w).2 = OrderItemsTable w ∧
   OrdersFifoQueue (OrderManager.handler env event w).2 = OrdersFifoQueue w) ∧
  (OrderManager.putFails env = false →
   OrderManager.batchWriteFails env = false →
   is_Some (OrdersTable (OrderManager.handler env event w).2
              !! (OrderManager.orderId event, OrderManager.toISOString env)) ∧
   ∀ k, k < length (OrderManager.orderItems event) →
        is_Some (OrderItemsTable (OrderManager.handler env event w).2
                   !! (OrderManager.orderId event,
                       OrderManager.itemId_of (OrderManager.orderId event) k))).
Proof.
  split; [| split].
  - intros Hput. by rewrite handler_put_fails.
  - intros Hput Hbatch. by rewrite handler_batch_fails.
  - intros Hput Hbatch.
    destruct (handler_written env event w Hput Hbatch)
      as (Horders & Hitems & _).
    rewrite Horders, Hitems, lookup_insert_eq. split; [by eexists |].
    intros k Hk. apply lookup_lt_is_Some_2 in Hk as [item Hitem].
    rewrite (put_all_orderItemRecords _ _ _ _ _ item) by done. by eexists.
Qed.

Lemma ingestion_write_outcomes_witness :
  is_Some
    (OrdersTable (OrderManager.handler (Sample.manager_env false false false)
                    Sample.order_001 Sample.empty_world).2
       !! ("order-001", "2025-01-01T00:00:00.000Z")) ∧
  is_Some
    (OrderItemsTable
       (OrderManager.handler (Sample.manager_env false false false)
          Sample.order_001 Sample.empty_world).2
       !! ("order-001", "order-001-item-0")).
Proof.
  destruct (ingestion_write_outcomes (Sample.manager_env false false false)
              Sample.order_001 Sample.empty_world) as (_ & _ & Hboth).
  destruct (Hboth eq_refl eq_refl) as [Horder Hitems].
  split; [exact Horder |]. apply (Hitems 0). simpl. lia.
Defined.

(** (C2, as stated, fails.) The put succeeds and the batch write fails:
    ingestion fails, the Order record has been written, no Item record
    has. *)
Lemma order_record_stays_when_batch_write_fails :
  (OrderManager.handler (Sample.manager_env false true false)
     Sample.order_001 Sample.empty_world).1 = Rejected DynamoDBError ∧
  OrdersTable Sample.empty_world
    !! ("order-001", "2025-01-01T00:00:00.000Z") = None ∧
  OrdersTable (OrderManager.handler (Sample.manager_env false true false)
                 Sample.order_001 Sample.empty_world).2
    !! ("order-001", "2025-01-01T00:00:00.000Z")
  = Some (OrderManager.orderRecord "order-001" "user-001" [Sample.laptop]
            "pending" "2025-01-01T00:00:00.000Z") ∧
  OrderItemsTable (OrderManager.handler (Sample.manager_env false true false)
                     Sample.order_001 Sample.empty_world).2
    !! ("order-001", "order-001-item-0") = None.
Proof.
  rewrite handler_batch_fails by reflexivity. cbn [fst snd].
  split; [reflexivity |]. split; [reflexivity |]. split.
  - apply lookup_insert_eq.
  - reflexivity.
Qed.

(** (C6) Enqueue only after persistence, and no rollback. When a write
    fails, ingestion fails and no send is even attempted. When both writes
    succeed, every send comes after them. When both writes succeed and a send
    fails, ingestion fails and every Item record is in the store with status
    PENDING. *)
Theorem enqueue_only_after_persistence
    (env : OrderManager.Env) (event : OrderManager.OrderEvent) (w : World) :
  (OrderManager.putFails env = true ∨ OrderManager.batchWriteFails env = true →
   (OrderManager.handler env event w).1 = Rejected DynamoDBError ∧
   OrdersFifoQueue (OrderManager.handler env event w).2 = OrdersFifoQueue w ∧
   ∃ events,
     trace (OrderManager.handler env event w).2 = (trace w ++ events)%list ∧
     ∀ command, EvSend command ∉ events) ∧
  (OrderManager.putFails env = false →
   OrderManager.batchWriteFails env = false →
   ∃ put batch,
     trace (OrderManager.handler env event w).2
     = (trace w ++ [EvPut put; EvBatchWrite batch]
        ++ imap (λ i r, EvSend (OrderManager.message env i r))
             (OrderManager.orderItemRecords_of (OrderManager.orderId event)
                (OrderManager.orderItems event)
                (OrderManager.toISOString env)))%list) ∧
  (OrderManager.putFails env = false →
   OrderManager.batchWriteFails env = false →
   (∃ i, i < length (OrderManager.orderItems event) ∧
         OrderManager.sendFails env i = true) →
   (OrderManager.handler env event w).1 = Rejected SQSError ∧
   ∀ k, k < length (OrderManager.orderItems event) →
        attribute (OrderItemsTable (OrderManager.handler env event w).2)
          (OrderManager.orderId event,
           OrderManager.itemId_of (OrderManager.orderId event) k)
          "itemStatus" = Some PENDING).
Proof.
  split; [| split].
  - intros Hfail.
    destruct (OrderManager.putFails env) eqn:Hput.
    + rewrite handler_put_fails by done. cbn [fst snd].
      split; [done |]. split; [done |]. eexists. split; [reflexivity |].
      intros command Hin. apply list_elem_of_singleton in Hin. discriminate.
    + destruct Hfail as [? | Hbatch]; [done |].
      rewrite handler_batch_fails by done. cbn [fst snd].
      split; [done |]. split; [done |].
      eexists [_; _]. split; [simpl; by rewrite <- app_assoc |].
      intros command Hin.
      apply elem_of_cons in Hin as [? | Hin]; [discriminate |].
      apply list_elem_of_singleton in Hin. discriminate.
  - intros Hput Hbatch.
    destruct (handler_written env event w Hput Hbatch)
      as (_ & _ & Htrace & _).
    do 2 eexists. exact Htrace.
  - intros Hput Hbatch Hsend.
    destruct (handler_written env event w Hput Hbatch)
      as (_ & Hitems & _ & _ & Hrej).
    split; [by apply Hrej |].
    intros k Hk. apply lookup_lt_is_Some_2 in Hk as [item Hitem].
    unfold attribute.
    rewrite Hitems, (put_all_orderItemRecords _ _ _ _ _ item) by done.
    simpl. unfold OrderManager.to_item. simpl. lookup_attribute.
Qed.

Lemma enqueue_only_after_persistence_witness :
  (OrderManager.handler (Sample.manager_env false false true)
     Sample.order_001 Sample.empty_world).1 = Rejected SQSError ∧
  attribute
    (OrderItemsTable
       (OrderManager.handler (Sample.manager_env false false true)
          Sample.order_001 Sample.empty_world).2)
    ("order-001", "order-001-item-0") "itemStatus" = Some PENDING.
Proof.
  destruct (enqueue_only_after_persistence
              (Sample.manager_env false false true)
              Sample.order_001 Sample.empty_world) as (_ & _ & Hsend).
  destruct (Hsend eq_refl eq_refl) as [Hrejected Hpending].
  - exists 0. split; [simpl; lia | reflexivity].
  - split; [exact Hrejected |]. apply (Hpending 0). simpl. lia.
Defined.

(** A successful ingestion is one in which nothing failed. *)
Lemma handler_fulfilled_inv env event w result :
  (OrderManager.handler env event w).1 = Fulfilled result →
  OrderManager.putFails env = false ∧
  OrderManager.batchWriteFails env = false ∧
  ∀ i, i < length (OrderManager.orderItems event) →
       OrderManager.sendFails env i = false.
Proof.
  intros Hok.
  destruct (OrderManager.putFails env) eqn:Hput.
  { rewrite handler_put_fails in Hok by done. discriminate. }
  destruct (OrderManager.batchWriteFails env) eqn:Hbatch.
  { rewrite handler_batch_fails in Hok by done. discriminate. }
  split; [done |]. split; [done |].
  intros i Hi. destruct (OrderManager.sendFails env i) eqn:Hsend; [| done].
  destruct (handler_written env event w Hput Hbatch) as (_ & _ & _ & _ & Hrej).
  rewrite Hrej in Hok by eauto. discriminate.
Qed.

Lemma message_lookup env o items ts k command :
  imap (OrderManager.message env) (OrderManager.orderItemRecords_of o items ts)
    !! k = Some command →
  ∃ r, OrderManager.orderItemRecords_of o items ts !! k = Some r ∧
       command = OrderManager.message env k r ∧
       OrderManager.rec_orderId r = o ∧
       OrderManager.rec_itemId r = OrderManager.itemId_of o k.
Proof.
  rewrite list_lookup_imap.
  destruct (OrderManager.orderItemRecords_of o items ts !! k) as [r |] eqn:Hr;
    [| done].
  intros [= <-]. exists r. apply orderItemRecords_key in Hr as [? ?]. done.
Qed.

(** (C9, as the code has it) The shape of the enqueue. After a successful
    ingestion the queue has received one message per item, in the order of
    the items; the k-th message has the order id as its MessageGroupId, the
    k-th Item record as its body, and the deduplication id made of the item
    id, the reading of the clock and k. The deduplication ids of one
    ingestion call are pairwise distinct. Two enqueue attempts, of whatever
    calls, have the same deduplication id exactly when they are for the same
    order id and the same position and read the same millisecond. *)
Theorem enqueue_shape
    (env : OrderManager.Env) (event : OrderManager.OrderEvent) (w : World)
    (result : OrderManager.APIGatewayProxyResult) :
  (OrderManager.handler env event w).1 = Fulfilled result →
  OrdersFifoQueue (OrderManager.handler env event w).2
  = (OrdersFifoQueue w
     ++ imap (OrderManager.message env)
          (OrderManager.orderItemRecords_of (OrderManager.orderId event)
             (OrderManager.orderItems event)
             (OrderManager.toISOString env)))%list ∧
  length (imap (OrderManager.message env)
            (OrderManager.orderItemRecords_of (OrderManager.orderId event)
               (OrderManager.orderItems event)
               (OrderManager.toISOString env)))
  = length (OrderManager.orderItems event) ∧
  (∀ k command,
     imap (OrderManager.message env)
       (OrderManager.orderItemRecords_of (OrderManager.orderId event)
          (OrderManager.orderItems event) (OrderManager.toISOString env))
       !! k = Some command →
     MessageGroupId command = OrderManager.orderId event ∧
     MessageDeduplicationId command
     = OrderManager.deduplicationId
         (OrderManager.itemId_of (OrderManager.orderId event) k)
         (OrderManager.dateNow env k) k ∧
     OrderItemsTable (OrderManager.handler env event w).2
       !! (OrderManager.orderId event,
           OrderManager.itemId_of (OrderManager.orderId event) k)
     = Some (MessageBody command)) ∧
  NoDup (MessageDeduplicationId
           <$> imap (OrderManager.message env)
                 (OrderManager.orderItemRecords_of (OrderManager.orderId event)
                    (OrderManager.orderItems event)
                    (OrderManager.toISOString env))) ∧
  (∀ k t orderId' k' t',
     OrderManager.deduplicationId
       (OrderManager.itemId_of (OrderManager.orderId event) k) t k
     = OrderManager.deduplicationId
         (OrderManager.itemId_of orderId' k') t' k'
     ↔ OrderManager.orderId event = orderId' ∧ k = k' ∧ t = t').
Proof.
  intros Hok.
  destruct (handler_fulfilled_inv _ _ _ _ Hok) as (Hput & Hbatch & Hsends).
  destruct (handler_written env event w Hput Hbatch)
    as (_ & Hitems & _ & Hqueue & _).
  destruct (Hqueue Hsends) as [_ ->].
  split; [done |]. split; [by rewrite length_imap, orderItemRecords_length |].
  split; [| split].
  - intros k command Hk.
    apply message_lookup in Hk as (r & Hr & -> & Ho & Hi).
    unfold OrderManager.message. cbn [MessageGroupId MessageDeduplicationId
                                       MessageBody].
    rewrite Ho, Hi. split; [done |]. split; [done |].
    unfold OrderManager.orderItemRecords_of in Hr.
    rewrite list_lookup_imap in Hr.
    destruct (OrderManager.orderItems event !! k) as [item |] eqn:Hitem;
      [| done].
    injection Hr as <-.
    by rewrite Hitems, (put_all_orderItemRecords _ _ _ _ _ item).
  - apply NoDup_alt. intros i j id Hi Hj.
    rewrite !list_lookup_fmap in Hi, Hj.
    destruct (imap _ _ !! i) as [ci |] eqn:Hci; [| done].
    destruct (imap _ _ !! j) as [cj |] eqn:Hcj; [| done].
    apply message_lookup in Hci as (ri & _ & -> & _ & Hii).
    apply message_lookup in Hcj as (rj & _ & -> & _ & Hij).
    simpl in Hi, Hj. rewrite Hii in Hi. rewrite Hij in Hj.
    assert (OrderManager.deduplicationId
              (OrderManager.itemId_of (OrderManager.orderId event) i)
              (OrderManager.dateNow env i) i
            = OrderManager.deduplicationId
                (OrderManager.itemId_of (OrderManager.orderId event) j)
                (OrderManager.dateNow env j) j) as Heq by congruence.
    by apply deduplicationId_inj in Heq as [? _].
  - intros k t orderId' k' t'. split.
    + apply deduplicationId_inj_order.
    + by intros (-> & -> & ->).
Qed.

Lemma enqueue_shape_witness :
  OrdersFifoQueue (OrderManager.handler (Sample.manager_env false false false)
                     Sample.order_001 Sample.empty_world).2
  = imap (OrderManager.message (Sample.manager_env false false false))
      (OrderManager.orderItemRecords_of "order-001" [Sample.laptop]
         "2025-01-01T00:00:00.000Z").
Proof.
  apply (enqueue_shape (Sample.manager_env false false false)
           Sample.order_001 Sample.empty_world
           {| OrderManager.statusCode := 200;
              OrderManager.body_message := "Orders processed successfully" |}).
  vm_compute. reflexivity.
Defined.

(** (C9, as stated, fails.) Two ingestion calls for the same order id that
    read the same millisecond, with requests that differ (in the user id), so
    that they are two requests for an idempotency layer keyed on the request:
    both succeed, and their two enqueue attempts carry the same deduplication
    id. *)
Lemma two_enqueue_attempts_with_one_deduplicationId :
  (OrderManager.handler (Sample.manager_env false false false)
     Sample.order_001 Sample.empty_world).1
  = Fulfilled {| OrderManager.statusCode := 200;
                 OrderManager.body_message := "Orders processed successfully" |} ∧
  (OrderManager.handler (Sample.manager_env false false false)
     Sample.order_001_again
     (OrderManager.handler (Sample.manager_env false false false)
        Sample.order_001 Sample.empty_world).2).1
  = Fulfilled {| OrderManager.statusCode := 200;
                 OrderManager.body_message := "Orders processed successfully" |} ∧
  MessageDeduplicationId
    <$> OrdersFifoQueue
          (OrderManager.handler (Sample.manager_env false false false)
             Sample.order_001_again
             (OrderManager.handler (Sample.manager_env false false false)
                Sample.order_001 Sample.empty_world).2).2
  = ["order-001-item-0-1735689600000-0"; "order-001-item-0-1735689600000-0"].
Proof. vm_compute. repeat split. Qed.

(** ** Retries and the Dead-Letter Queue *)

Lemma deliver_empty env dl d w :
  QueueSubstrate.deliver env
    ({| QueueSubstrate.mainQueue := [];
        QueueSubstrate.deadLetterQueue := dl;
        QueueSubstrate.deliveries := d |}, w)
  = ({| QueueSubstrate.mainQueue := [];
        QueueSubstrate.deadLetterQueue := dl;
        QueueSubstrate.deliveries := d |}, w).
Proof. reflexivity. Qed.

Lemma run_empty envs n dl d w :
  QueueSubstrate.run envs n
    ({| QueueSubstrate.mainQueue := [];
        QueueSubstrate.deadLetterQueue := dl;
        QueueSubstrate.deliveries := d |}, w)
  = ({| QueueSubstrate.mainQueue := [];
        QueueSubstrate.deadLetterQueue := dl;
        QueueSubstrate.deliveries := d |}, w).
Proof.
  revert envs. induction n as [| n IH]; intros envs; [reflexivity |].
  simpl. rewrite deliver_empty. apply IH.
Qed.

(** One delivery of a message whose unit of work throws: the handler
    rejects, the items table is as before, and the message either stays on
    the main queue with one more failed delivery or, its budget spent, moves
    to the Dead-Letter Queue. *)
Lemma deliver_failing env record m failures dl d w :
  body record = Json m →
  ¬ terminal (itemStatus_of w (orderId m, itemId m)) →
  OrderProcessor.shouldSimulateFailure (itemId m)
    (OrderProcessor.mathRandom env) = true →
  ∃ w',
    OrderItemsTable w' = OrderItemsTable w ∧
    QueueSubstrate.deliver env
      ({| QueueSubstrate.mainQueue := [(record, failures)];
          QueueSubstrate.deadLetterQueue := dl;
          QueueSubstrate.deliveries := d |}, w)
    = (if bool_decide (SqsStack.maxReceiveCount < S failures)
       then {| QueueSubstrate.mainQueue := [];
               QueueSubstrate.deadLetterQueue := (dl ++ [record])%list;
               QueueSubstrate.deliveries := (d ++ [record])%list |}
       else {| QueueSubstrate.mainQueue := [(record, S failures)];
               QueueSubstrate.deadLetterQueue := dl;
               QueueSubstrate.deliveries := (d ++ [record])%list |}, w').
Proof.
  intros Hbody Hterm Hfail.
  pose proof (handler_single_failing (λ _, env) record m w Hbody Hterm Hfail)
    as Hhandler. cbn zeta in Hhandler.
  exists (OrderProcessor.handler (λ _, env) [record] w).2.
  unfold QueueSubstrate.deliver. cbn [fst snd QueueSubstrate.mainQueue
    QueueSubstrate.deadLetterQueue QueueSubstrate.deliveries].
  rewrite Hhandler.
  destruct (OrderProcessor.getFails env); cbn [fst snd];
    (split; [done |]); by destruct (bool_decide _).
Qed.

Lemma run_failing envs record m (n failures : nat) d w :
  body record = Json m →
  ¬ terminal (itemStatus_of w (orderId m, itemId m)) →
  (∀ i, OrderProcessor.shouldSimulateFailure (itemId m)
          (OrderProcessor.mathRandom (envs i)) = true) →
  (failures ≤ SqsStack.maxReceiveCount)%nat →
  (QueueSubstrate.run envs n
     ({| QueueSubstrate.mainQueue := [(record, failures)];
         QueueSubstrate.deadLetterQueue := [];
         QueueSubstrate.deliveries := d |}, w)).1
  = (if decide (failures + n ≤ SqsStack.maxReceiveCount)%nat
     then {| QueueSubstrate.mainQueue := [(record, failures + n)];
             QueueSubstrate.deadLetterQueue := [];
             QueueSubstrate.deliveries := (d ++ replicate n record)%list |}
     else {| QueueSubstrate.mainQueue := [];
             QueueSubstrate.deadLetterQueue := [record];
             QueueSubstrate.deliveries :=
               (d ++ replicate (S SqsStack.maxReceiveCount - failures)
                       record)%list |}) ∧
  OrderItemsTable
    (QueueSubstrate.run envs n
       ({| QueueSubstrate.mainQueue := [(record, failures)];
           QueueSubstrate.deadLetterQueue := [];
           QueueSubstrate.deliveries := d |}, w)).2
  = OrderItemsTable w.
Proof.
  intros Hbody. revert envs failures d w.
  induction n as [| n IH]; intros envs failures d w Hterm Hfail Hle.
  - simpl. rewrite Nat.add_0_r, app_nil_r. by rewrite decide_True.
  - cbn [QueueSubstrate.run].
    destruct (deliver_failing (envs 0) record m failures [] d w Hbody Hterm
                (Hfail 0)) as (w' & Htable & ->).
    destruct (bool_decide (SqsStack.maxReceiveCount < S failures)) eqn:Hmax.
    + apply bool_decide_eq_true in Hmax.
      rewrite run_empty. cbn [fst snd].
      rewrite decide_False by lia. split; [| done].
      replace (S SqsStack.maxReceiveCount - failures) with 1 by lia.
      reflexivity.
    + apply bool_decide_eq_false in Hmax.
      destruct (IH (λ i, envs (S i)) (S failures) (d ++ [record])%list w')
        as [-> ->]; [| by intros i; apply Hfail | lia |].
      { unfold itemStatus_of in *. by rewrite Htable. }
      split; [| done].
      destruct (decide (S failures + n ≤ SqsStack.maxReceiveCount)%nat).
      * rewrite decide_True by lia.
        rewrite <- app_assoc, Nat.add_succ_r. reflexivity.
      * rewrite decide_False by lia. rewrite <- app_assoc.
        replace (S SqsStack.maxReceiveCount - failures)
          with (S (S SqsStack.maxReceiveCount - S failures)) by lia.
        reflexivity.
Qed.

(** (C7) Retry, then escalate. A message whose unit of work always fails is
    delivered, then redelivered exactly [maxReceiveCount] = 3 times from the
    main queue, each time leaving the items table as it is; with the failure
    of the last of these deliveries it leaves the main queue and is on the
    Dead-Letter Queue, once, the same record, and stays there. *)
Theorem retry_then_escalate
    (envs : nat → OrderProcessor.Env) (record : SQSRecord)
    (m : OrderItemMessage) (w : World) :
  body record = Json m →
  ¬ terminal (itemStatus_of w (orderId m, itemId m)) →
  (∀ i, OrderProcessor.shouldSimulateFailure (itemId m)
          (OrderProcessor.mathRandom (envs i)) = true) →
  SqsStack.maxReceiveCount = 3 ∧
  (∀ n : nat, (n ≤ SqsStack.maxReceiveCount)%nat →
        (QueueSubstrate.run envs n (QueueSubstrate.start record w)).1
        = {| QueueSubstrate.mainQueue := [(record, n)];
             QueueSubstrate.deadLetterQueue := [];
             QueueSubstrate.deliveries := replicate n record |}) ∧
  (∀ n : nat, SqsStack.maxReceiveCount < n →
        (QueueSubstrate.run envs n (QueueSubstrate.start record w)).1
        = {| QueueSubstrate.mainQueue := [];
             QueueSubstrate.deadLetterQueue := [record];
             QueueSubstrate.deliveries :=
               record :: replicate SqsStack.maxReceiveCount record |}) ∧
  (∀ n, OrderItemsTable
          (QueueSubstrate.run envs n (QueueSubstrate.start record w)).2
        = OrderItemsTable w).
Proof.
  intros Hbody Hterm Hfail. split; [reflexivity |].
  unfold QueueSubstrate.start.
  split; [| split]; intros n; [intros Hn ..|];
    destruct (run_failing envs record m n 0 [] w Hbody Hterm Hfail
                ltac:(lia)) as [Hq Ht]; try done.
  - rewrite Hq. by rewrite decide_True by (simpl; lia).
  - rewrite Hq. by rewrite decide_False by (simpl; lia).
Qed.

Lemma retry_then_escalate_witness :
  (QueueSubstrate.run (λ _, Sample.processor_env false 0.75%float false) 4
     (QueueSubstrate.start (Sample.sqs_record "order-001-item-3")
        (Sample.world_with "order-001-item-3" "PENDING"))).1
  = {| QueueSubstrate.mainQueue := [];
       QueueSubstrate.deadLetterQueue := [Sample.sqs_record "order-001-item-3"];
       QueueSubstrate.deliveries :=
         replicate 4 (Sample.sqs_record "order-001-item-3") |}.
Proof.
  destruct (retry_then_escalate
              (λ _, Sample.processor_env false 0.75%float false)
              (Sample.sqs_record "order-001-item-3")
              (Sample.item_message "order-001-item-3")
              (Sample.world_with "order-001-item-3" "PENDING"))
    as (_ & _ & Hescalated & _).
  - reflexivity.
  - intros [H | H]; vm_compute in H; discriminate H.
  - intros i. reflexivity.
  - apply (Hescalated 4). unfold SqsStack.maxReceiveCount. lia.
Defined.

(** * Further properties of the handlers *)

(** ** The last character of an item id *)

Lemma slice_last_append a b : b ≠ "" → Js.slice_last (a +:+ b) = Js.slice_last b.
Proof.
  intros Hb. induction a as [| c a IH]; [reflexivity |].
  rewrite append_String. simpl. rewrite IH.
  destruct (a +:+ b) eqn:Hab; [| reflexivity].
  destruct a; [| discriminate Hab]. rewrite append_empty in Hab. done.
Qed.

Lemma string_of_uint_nonempty d :
  d ≠ Decimal.Nil → NilEmpty.string_of_uint d ≠ "".
Proof. destruct d; simpl; congruence. Qed.

Lemma revapp_nonnil d acc : acc ≠ Decimal.Nil → Decimal.revapp d acc ≠ Decimal.Nil.
Proof.
  revert acc. induction d; intros acc Hacc; simpl; auto; apply IHd; discriminate.
Qed.

(** The last character of a numeral written from a reversed one is the last
    character of what it was reversed onto. *)
Lemma slice_last_revapp d acc :
  acc ≠ Decimal.Nil →
  Js.slice_last (NilEmpty.string_of_uint (Decimal.revapp d acc))
  = Js.slice_last (NilEmpty.string_of_uint acc).
Proof.
  revert acc. induction d; intros acc Hacc; simpl Decimal.revapp; [done | ..];
    (rewrite IHd by discriminate;
     cbn [NilEmpty.string_of_uint Js.slice_last];
     destruct (NilEmpty.string_of_uint acc) eqn:Hs; [| reflexivity];
     by apply string_of_uint_nonempty in Hs).
Qed.

Lemma to_lu_nonnil n : DecimalNat.Unsigned.to_lu n ≠ Decimal.Nil.
Proof.
  intros H. pose proof (DecimalNat.Unsigned.of_to_lu n) as Hn.
  rewrite H in Hn. simpl in Hn. subst n. discriminate H.
Qed.

Lemma hd_to_lu n :
  DecimalNat.Unsigned.hd (DecimalNat.Unsigned.to_lu n) = n mod 10.
Proof.
  pose proof (DecimalNat.Unsigned.of_to_lu n) as Hn.
  rewrite DecimalNat.Unsigned.of_lu_eqn in Hn.
  assert (DecimalNat.Unsigned.hd (DecimalNat.Unsigned.to_lu n) < 10) as Hlt.
  { destruct (DecimalNat.Unsigned.to_lu n); simpl; lia. }
  rewrite <- Hn at 2.
  rewrite (Nat.mul_comm 10), Nat.Div0.mod_add.
  symmetry. by apply Nat.mod_small.
Qed.

(** The last character of the decimal writing of [n] is its last digit. *)
Lemma slice_last_index_toString n :
  Js.slice_last (Js.index_toString n) = Js.index_toString (n mod 10).
Proof.
  unfold Js.index_toString at 1.
  rewrite DecimalNat.Unsigned.to_uint_alt, <- hd_to_lu.
  pose proof (to_lu_nonnil n) as Hnil.
  destruct (DecimalNat.Unsigned.to_lu n) as [| d | d | d | d | d | d | d | d | d | d];
    [done | ..]; unfold Decimal.rev; simpl Decimal.revapp;
    unfold NilZero.string_of_uint;
    (destruct (Decimal.revapp d _) eqn:Hrev;
     [by apply revapp_nonnil in Hrev | ..]);
    rewrite <- Hrev; by rewrite slice_last_revapp.
Qed.

Lemma index_toString_nonempty n : Js.index_toString n ≠ "".
Proof.
  unfold Js.index_toString, NilZero.string_of_uint.
  pose proof (Nat_to_uint_nonnil n).
  destruct (Nat.to_uint n); simpl; congruence.
Qed.

Lemma slice_last_itemId_of o k :
  Js.slice_last (OrderManager.itemId_of o k) = Js.index_toString (k mod 10).
Proof.
  unfold OrderManager.itemId_of.
  rewrite <- append_assoc_r, slice_last_append by apply index_toString_nonempty.
  apply slice_last_index_toString.
Qed.

(** (X1) The failure that the Item Processor simulates for an item is
    decided by the position the OrderManager gave the item in its order: the
    item at position [k] always fails when the last digit of [k] is 3, fails
    when the draw is below one half when that digit is 1, and never fails
    otherwise. *)
Theorem failure_policy_by_position (o : string) (k : nat) (random : Js.number) :
  OrderProcessor.shouldSimulateFailure (OrderManager.itemId_of o k) random
  = if decide (k mod 10 = 3) then true
    else if decide (k mod 10 = 1) then PrimFloat.ltb random 0.5%float
    else false.
Proof.
  unfold OrderProcessor.shouldSimulateFailure. cbn zeta.
  rewrite slice_last_itemId_of.
  change "3" with (Js.index_toString 3). change "1" with (Js.index_toString 1).
  destruct (decide (k mod 10 = 3)) as [-> | H3]; [reflexivity |].
  rewrite bool_decide_eq_false_2 by (intros H; by apply index_toString_inj in H).
  destruct (decide (k mod 10 = 1)) as [-> | H1]; [reflexivity |].
  by rewrite bool_decide_eq_false_2
    by (intros H; by apply index_toString_inj in H).
Qed.

(** ** The Item Processor, beyond the failure path *)

Lemma assign_two (item : Item) a1 v1 a2 v2 :
  dynamoDB.assign item [(a1, v1); (a2, v2)] = <[a2 := v2]> (<[a1 := v1]> item).
Proof. reflexivity. Qed.

(** A single record whose item is in a terminal status. *)
Lemma handler_single_terminal envs record m w :
  body record = Json m →
  terminal (itemStatus_of w (orderId m, itemId m)) →
  OrderProcessor.handler envs [record] w =
  (if OrderProcessor.getFails (envs 0) then Rejected DynamoDBError
   else Fulfilled tt,
   record_event (EvGet (orderId m, itemId m)) w).
Proof.
  intros Hbody Hterm. rewrite handler_single.
  rewrite (processRecord_Json _ _ m) by done. cbn zeta.
  apply terminal_strict_eq in Hterm. rewrite Hterm.
  by destruct (OrderProcessor.getFails (envs 0)).
Qed.

(** A single record whose lookup and unit of work succeed. *)
Lemma handler_single_worked envs record m w :
  body record = Json m →
  ¬ terminal (itemStatus_of w (orderId m, itemId m)) →
  OrderProcessor.getFails (envs 0) = false →
  OrderProcessor.shouldSimulateFailure (itemId m)
    (OrderProcessor.mathRandom (envs 0)) = false →
  OrderProcessor.handler envs [record] w =
  let key := (orderId m, itemId m) in
  let assignments :=
    [("itemStatus", AttrS "PROCESSED");
     ("processedAt", AttrS (OrderProcessor.toISOString (envs 0)))] in
  let w3 :=
    record_event (EvUpdate key assignments)
      (record_event (EvProcessOrderItem m) (record_event (EvGet key) w)) in
  if OrderProcessor.updateFails (envs 0) then (Rejected DynamoDBError, w3)
  else (Fulfilled tt,
        with_OrderItemsTable
          (λ t, <[key := dynamoDB.assign
                           (default (dynamoDB.key_attributes key) (t !! key))
                           assignments]> t) w3).
Proof.
  intros Hbody Hterm Hget Hwork. rewrite handler_single.
  rewrite (processRecord_Json _ _ m) by done. cbn zeta.
  apply not_terminal_strict_eq in Hterm as [-> ->]. rewrite Hget, Hwork.
  by destruct (OrderProcessor.updateFails (envs 0)).
Qed.

(** (X2) The success path of the Item Processor. When the item of the
    delivered message is stored and not in a terminal status, and the lookup,
    the unit of work and the update succeed, the handler resolves after
    exactly these three requests, and the stored item is the item as it was
    with itemStatus set to PROCESSED and processedAt set to the time of the
    update: every other attribute of the item, every other item, the orders
    table and the queue are as before. *)
Theorem processing_success_marks_processed
    (envs : nat → OrderProcessor.Env) (record : SQSRecord)
    (m : OrderItemMessage) (item : Item) (w : World) :
  body record = Json m →
  OrderItemsTable w !! (orderId m, itemId m) = Some item →
  ¬ terminal (itemStatus_of w (orderId m, itemId m)) →
  OrderProcessor.getFails (envs 0) = false →
  OrderProcessor.shouldSimulateFailure (itemId m)
    (OrderProcessor.mathRandom (envs 0)) = false →
  OrderProcessor.updateFails (envs 0) = false →
  (OrderProcessor.handler envs [record] w).1 = Fulfilled tt ∧
  OrderItemsTable (OrderProcessor.handler envs [record] w).2
  = <[(orderId m, itemId m) :=
        <["processedAt" := AttrS (OrderProcessor.toISOString (envs 0))]>
          (<["itemStatus" := PROCESSED]> item)]> (OrderItemsTable w) ∧
  (∀ name, name ≠ "itemStatus" → name ≠ "processedAt" →
     attribute (OrderItemsTable (OrderProcessor.handler envs [record] w).2)
       (orderId m, itemId m) name = item !! name) ∧
  OrdersTable (OrderProcessor.handler envs [record] w).2 = OrdersTable w ∧
  OrdersFifoQueue (OrderProcessor.handler envs [record] w).2
  = OrdersFifoQueue w ∧
  trace (OrderProcessor.handler envs [record] w).2
  = (trace w
     ++ [EvGet (orderId m, itemId m);
         EvProcessOrderItem m;
         EvUpdate (orderId m, itemId m)
           [("itemStatus", AttrS "PROCESSED");
            ("processedAt", AttrS (OrderProcessor.toISOString (envs 0)))]])%list.
Proof.
  intros Hbody Hitem Hterm Hget Hwork Hupd.
  rewrite (handler_single_worked _ _ m) by done. cbn zeta. rewrite Hupd.
  cbn [fst snd with_OrderItemsTable record_event OrderItemsTable OrdersTable
       OrdersFifoQueue trace].
  rewrite Hitem, assign_two. cbn [default].
  repeat split; try done.
  - intros name Hs Hp. unfold attribute. rewrite lookup_insert_eq. simpl.
    by rewrite !lookup_insert_ne by done.
  - by rewrite <- !app_assoc.
Qed.

Lemma processing_success_marks_processed_witness :
  (OrderProcessor.handler (λ _, Sample.processor_env false 0.75%float false)
     [Sample.sqs_record "order-001-item-1"]
     (Sample.world_with "order-001-item-1" "PENDING")).1 = Fulfilled tt ∧
  OrderItemsTable
    (OrderProcessor.handler (λ _, Sample.processor_env false 0.75%float false)
       [Sample.sqs_record "order-001-item-1"]
       (Sample.world_with "order-001-item-1" "PENDING")).2
  = <[("order-001", "order-001-item-1") :=
        <["processedAt" := AttrS "2025-01-01T00:00:05.000Z"]>
          (<["itemStatus" := PROCESSED]>
             (Sample.stored_item "order-001-item-1" "PENDING"))]>
      (OrderItemsTable (Sample.world_with "order-001-item-1" "PENDING")).
Proof.
  destruct (processing_success_marks_processed
              (λ _, Sample.processor_env false 0.75%float false)
              (Sample.sqs_record "order-001-item-1")
              (Sample.item_message "order-001-item-1")
              (Sample.stored_item "order-001-item-1" "PENDING")
              (Sample.world_with "order-001-item-1" "PENDING"))
    as (Hresolved & Htable & _); try reflexivity.
  - intros [H | H]; vm_compute in H; discriminate H.
  - split; [exact Hresolved | exact Htable].
Defined.

(** (X3) An item that is not in the table. When no item is stored under the
    key of the delivered message, the Item Processor still runs the unit of
    work, and its update creates the item: an item with the two key
    attributes, itemStatus PROCESSED and processedAt, and nothing else. *)
Theorem processing_creates_missing_item
    (envs : nat → OrderProcessor.Env) (record : SQSRecord)
    (m : OrderItemMessage) (w : World) :
  body record = Json m →
  OrderItemsTable w !! (orderId m, itemId m) = None →
  OrderProcessor.getFails (envs 0) = false →
  OrderProcessor.shouldSimulateFailure (itemId m)
    (OrderProcessor.mathRandom (envs 0)) = false →
  OrderProcessor.updateFails (envs 0) = false →
  (OrderProcessor.handler envs [record] w).1 = Fulfilled tt ∧
  OrderItemsTable (OrderProcessor.handler envs [record] w).2
    !! (orderId m, itemId m)
  = Some (<["processedAt" := AttrS (OrderProcessor.toISOString (envs 0))]>
            (<["itemStatus" := PROCESSED]>
               {[ "orderId" := AttrS (orderId m);
                  "itemId" := AttrS (itemId m) ]})) ∧
  (∀ name, name ∉ ["orderId"; "itemId"; "itemStatus"; "processedAt"] →
     attribute (OrderItemsTable (OrderProcessor.handler envs [record] w).2)
       (orderId m, itemId m) name = None).
Proof.
  intros Hbody Hitem Hget Hwork Hupd.
  assert (¬ terminal (itemStatus_of w (orderId m, itemId m))) as Hterm.
  { unfold itemStatus_of. rewrite Hitem. intros [H | H]; discriminate H. }
  rewrite (handler_single_worked _ _ m) by done. cbn zeta. rewrite Hupd.
  cbn [fst snd with_OrderItemsTable record_event OrderItemsTable].
  rewrite Hitem, assign_two, lookup_insert_eq. cbn [default].
  split; [done |]. split; [done |].
  intros name Hname. unfold attribute. rewrite lookup_insert_eq. simpl.
  apply not_elem_of_cons in Hname as [H1 Hname].
  apply not_elem_of_cons in Hname as [H2 Hname].
  apply not_elem_of_cons in Hname as [H3 Hname].
  apply not_elem_of_cons in Hname as [H4 _].
  unfold dynamoDB.key_attributes. simpl.
  rewrite !lookup_insert_ne by done. by rewrite lookup_singleton_ne.
Qed.

Lemma processing_creates_missing_item_witness :
  (OrderProcessor.handler (λ _, Sample.processor_env false 0.75%float false)
     [Sample.sqs_record "order-001-item-0"] Sample.empty_world).1
  = Fulfilled tt ∧
  OrderItemsTable
    (OrderProcessor.handler (λ _, Sample.processor_env false 0.75%float false)
       [Sample.sqs_record "order-001-item-0"] Sample.empty_world).2
    !! ("order-001", "order-001-item-0")
  = Some (<["processedAt" := AttrS "2025-01-01T00:00:05.000Z"]>
            (<["itemStatus" := PROCESSED]>
               {[ "orderId" := AttrS "order-001";
                  "itemId" := AttrS "order-001-item-0" ]})).
Proof.
  destruct (processing_creates_missing_item
              (λ _, Sample.processor_env false 0.75%float false)
              (Sample.sqs_record "order-001-item-0")
              (Sample.item_message "order-001-item-0")
              Sample.empty_world)
    as (Hresolved & Hcreated & _); try reflexivity.
  split; [exact Hresolved | exact Hcreated].
Defined.

(** (X4) A failed update after a successful unit of work. The handler
    rejects and the items table is as before, although the unit of work has
    run; when the message is then delivered again and everything succeeds,
    the unit of work runs a second time before the item is marked
    PROCESSED. *)
Theorem update_failure_reruns_unit_of_work
    (envs envs' : nat → OrderProcessor.Env) (record : SQSRecord)
    (m : OrderItemMessage) (w : World) :
  body record = Json m →
  ¬ terminal (itemStatus_of w (orderId m, itemId m)) →
  OrderProcessor.getFails (envs 0) = false →
  OrderProcessor.shouldSimulateFailure (itemId m)
    (OrderProcessor.mathRandom (envs 0)) = false →
  OrderProcessor.updateFails (envs 0) = true →
  OrderProcessor.getFails (envs' 0) = false →
  OrderProcessor.shouldSimulateFailure (itemId m)
    (OrderProcessor.mathRandom (envs' 0)) = false →
  OrderProcessor.updateFails (envs' 0) = false →
  (OrderProcessor.handler envs [record] w).1 = Rejected DynamoDBError ∧
  OrderItemsTable (OrderProcessor.handler envs [record] w).2
  = OrderItemsTable w ∧
  (OrderProcessor.handler envs' [record]
     (OrderProcessor.handler envs [record] w).2).1 = Fulfilled tt ∧
  itemStatus_of
    (OrderProcessor.handler envs' [record]
       (OrderProcessor.handler envs [record] w).2).2
    (orderId m, itemId m) = Some PROCESSED ∧
  trace (OrderProcessor.handler envs' [record]
           (OrderProcessor.handler envs [record] w).2).2
  = (trace w
     ++ [EvGet (orderId m, itemId m);
         EvProcessOrderItem m;
         EvUpdate (orderId m, itemId m)
           [("itemStatus", AttrS "PROCESSED");
            ("processedAt", AttrS (OrderProcessor.toISOString (envs 0)))];
         EvGet (orderId m, itemId m);
         EvProcessOrderItem m;
         EvUpdate (orderId m, itemId m)
           [("itemStatus", AttrS "PROCESSED");
            ("processedAt", AttrS (OrderProcessor.toISOString (envs' 0)))]])%list.
Proof.
  intros Hbody Hterm Hget Hwork Hupd Hget' Hwork' Hupd'.
  rewrite (handler_single_worked envs _ m) by done. cbn zeta. rewrite Hupd.
  cbn [fst snd]. split; [done |]. split; [done |].
  rewrite (handler_single_worked envs' _ m) by done. cbn zeta. rewrite Hupd'.
  cbn [fst snd]. split; [done |]. split.
  - unfold itemStatus_of. simpl. rewrite lookup_insert_eq. simpl.
    rewrite ?assign_two, lookup_insert_ne by done. apply lookup_insert_eq.
  - simpl. by rewrite <- !app_assoc.
Qed.

Lemma update_failure_reruns_unit_of_work_witness :
  (OrderProcessor.handler (λ _, Sample.processor_env false 0.75%float true)
     [Sample.sqs_record "order-001-item-0"]
     (Sample.world_with "order-001-item-0" "PENDING")).1
  = Rejected DynamoDBError ∧
  itemStatus_of
    (OrderProcessor.handler (λ _, Sample.processor_env false 0.75%float false)
       [Sample.sqs_record "order-001-item-0"]
       (OrderProcessor.handler
          (λ _, Sample.processor_env false 0.75%float true)
          [Sample.sqs_record "order-001-item-0"]
          (Sample.world_with "order-001-item-0" "PENDING")).2).2
    ("order-001", "order-001-item-0") = Some PROCESSED.
Proof.
  destruct (update_failure_reruns_unit_of_work
              (λ _, Sample.processor_env false 0.75%float true)
              (λ _, Sample.processor_env false 0.75%float false)
              (Sample.sqs_record "order-001-item-0")
              (Sample.item_message "order-001-item-0")
              (Sample.world_with "order-001-item-0" "PENDING"))
    as (Hrejected & _ & _ & Hprocessed & _); try reflexivity.
  - intros [H | H]; vm_compute in H; discriminate H.
  - split; [exact Hrejected | exact Hprocessed].
Defined.

(** (X5) Processed once. After a delivery that marked the item PROCESSED, a
    further delivery of the same message, whatever the outside decides then,
    makes one lookup and changes nothing: the tables are as the first
    delivery left them, so processedAt keeps the time of the first
    delivery. *)
Theorem redelivery_after_success_changes_nothing
    (envs envs' : nat → OrderProcessor.Env) (record : SQSRecord)
    (m : OrderItemMessage) (w : World) :
  body record = Json m →
  ¬ terminal (itemStatus_of w (orderId m, itemId m)) →
  OrderProcessor.getFails (envs 0) = false →
  OrderProcessor.shouldSimulateFailure (itemId m)
    (OrderProcessor.mathRandom (envs 0)) = false →
  OrderProcessor.updateFails (envs 0) = false →
  (OrderProcessor.handler envs' [record]
     (OrderProcessor.handler envs [record] w).2).2
  = record_event (EvGet (orderId m, itemId m))
      (OrderProcessor.handler envs [record] w).2 ∧
  attribute
    (OrderItemsTable
       (OrderProcessor.handler envs' [record]
          (OrderProcessor.handler envs [record] w).2).2)
    (orderId m, itemId m) "processedAt"
  = Some (AttrS (OrderProcessor.toISOString (envs 0))) ∧
  (OrderProcessor.getFails (envs' 0) = false →
   (OrderProcessor.handler envs' [record]
      (OrderProcessor.handler envs [record] w).2).1 = Fulfilled tt).
Proof.
  intros Hbody Hterm Hget Hwork Hupd.
  rewrite (handler_single_worked envs _ m) by done. cbn zeta. rewrite Hupd.
  cbn [fst snd].
  rewrite (handler_single_terminal envs' _ m); [| done |].
  2: { left. unfold itemStatus_of. simpl. rewrite lookup_insert_eq. simpl.
       rewrite ?assign_two, lookup_insert_ne by done. apply lookup_insert_eq. }
  cbn [fst snd]. split; [done |]. split.
  - unfold attribute. simpl. rewrite lookup_insert_eq. simpl.
    rewrite ?assign_two. apply lookup_insert_eq.
  - by intros ->.
Qed.

Lemma redelivery_after_success_changes_nothing_witness :
  attribute
    (OrderItemsTable
       (OrderProcessor.handler (λ _, Sample.processor_env false 0.25%float false)
          [Sample.sqs_record "order-001-item-1"]
          (OrderProcessor.handler
             (λ _, Sample.processor_env false 0.75%float false)
             [Sample.sqs_record "order-001-item-1"]
             (Sample.world_with "order-001-item-1" "PENDING")).2).2)
    ("order-001", "order-001-item-1") "processedAt"
  = Some (AttrS "2025-01-01T00:00:05.000Z").
Proof.
  destruct (redelivery_after_success_changes_nothing
              (λ _, Sample.processor_env false 0.75%float false)
              (λ _, Sample.processor_env false 0.25%float false)
              (Sample.sqs_record "order-001-item-1")
              (Sample.item_message "order-001-item-1")
              (Sample.world_with "order-001-item-1" "PENDING"))
    as (_ & Hstamp & _); [reflexivity | | reflexivity .. | exact Hstamp].
  intros [H | H]; vm_compute in H; discriminate H.
Defined.

(** (X6) A body that is not JSON. The Item Processor rejects such a record
    with the error of the parser before it makes any request, so the message
    is not acknowledged; the Dead-Letter Handler swallows the error and
    resolves, so the message is acknowledged. Neither changes anything. *)
Theorem malformed_body_outcomes
    (envs : nat → OrderProcessor.Env) (envs' : nat → DLQProcessor.Env)
    (record : SQSRecord) (raw : string) (w : World) :
  body record = Malformed raw →
  OrderProcessor.handler envs [record] w = (Rejected SyntaxError, w) ∧
  DLQProcessor.handler envs' [record] w = (Fulfilled tt, w).
Proof.
  intros Hbody. split.
  - rewrite handler_single. by rewrite (processRecord_Malformed _ _ raw).
  - rewrite DLQProcessor_handler_single.
    by rewrite (processDLQRecord_Malformed _ _ raw).
Qed.

Lemma malformed_body_outcomes_witness :
  OrderProcessor.handler (λ _, Sample.processor_env false 0.75%float false)
    [MoreSamples.malformed_record] Sample.empty_world
  = (Rejected SyntaxError, Sample.empty_world) ∧
  DLQProcessor.handler (λ _, Sample.dlq_env false)
    [MoreSamples.malformed_record] Sample.empty_world
  = (Fulfilled tt, Sample.empty_world).
Proof.
  apply (malformed_body_outcomes
           (λ _, Sample.processor_env false 0.75%float false)
           (λ _, Sample.dlq_env false)
           MoreSamples.malformed_record "not json" Sample.empty_world).
  reflexivity.
Defined.

(** ** Batches of the Item Processor *)

(** (X7) What the Item Processor never touches. Whatever the batch and
    whatever fails, the handler leaves the orders table and the queue as they
    are (the status of an order is never updated), and it leaves every item
    as it is but those whose key is named by a well-formed record of the
    batch. *)
Theorem item_processor_frame
    (envs : nat → OrderProcessor.Env) (event : list SQSRecord) (w : World) :
  OrdersTable (OrderProcessor.handler envs event w).2 = OrdersTable w ∧
  OrdersFifoQueue (OrderProcessor.handler envs event w).2 = OrdersFifoQueue w ∧
  (∀ key,
     (∀ record m, record ∈ event → body record = Json m →
                  (orderId m, itemId m) ≠ key) →
     OrderItemsTable (OrderProcessor.handler envs event w).2 !! key
     = OrderItemsTable w !! key).
Proof.
  rewrite OrderProcessor_handler_world.
  split; [| split].
  - apply (Promise_all_invariant (λ v, OrdersTable v = OrdersTable w)); [| done].
    intros p v Hp Hv. apply elem_of_lookup_imap in Hp as (i & r & -> & _).
    destruct (processRecord_frame (envs i) r v) as (-> & _). done.
  - apply (Promise_all_invariant (λ v, OrdersFifoQueue v = OrdersFifoQueue w));
      [| done].
    intros p v Hp Hv. apply elem_of_lookup_imap in Hp as (i & r & -> & _).
    destruct (processRecord_frame (envs i) r v) as (_ & -> & _). done.
  - intros key Hkey.
    apply (Promise_all_invariant
             (λ v, OrderItemsTable v !! key = OrderItemsTable w !! key));
      [| done].
    intros p v Hp Hv. apply elem_of_lookup_imap in Hp as (i & r & -> & Hr).
    destruct (processRecord_frame (envs i) r v) as (_ & _ & [-> | Hupd]);
      [done |].
    destruct Hupd as (m & Hbody & _ & _ & ->).
    rewrite lookup_insert_ne; [done |].
    apply (Hkey r m); [| done]. apply list_elem_of_lookup. eauto.
Qed.

Lemma item_processor_frame_witness :
  OrderItemsTable
    (OrderProcessor.handler (λ _, Sample.processor_env false 0.75%float false)
       [Sample.sqs_record "order-001-item-0"]
       (Sample.world_with "order-001-item-2" "PENDING")).2
    !! ("order-001", "order-001-item-2")
  = OrderItemsTable (Sample.world_with "order-001-item-2" "PENDING")
      !! ("order-001", "order-001-item-2").
Proof.
  destruct (item_processor_frame
              (λ _, Sample.processor_env false 0.75%float false)
              [Sample.sqs_record "order-001-item-0"]
              (Sample.world_with "order-001-item-2" "PENDING"))
    as (_ & _ & Hitems).
  apply Hitems. intros record m Hin Hbody.
  apply list_elem_of_singleton in Hin. subst record.
  injection Hbody as <-. discriminate.
Defined.




(** ** The Dead-Letter Handler, beyond its outcome *)

(** (X9) What marking an item FAILED keeps. When the item of a
    Dead-Letter Queue message is stored and the update succeeds, the handler
    makes one request, the update, without any lookup, and the stored item is
    the item as it was with itemStatus set to FAILED and failedAt set to the
    time of the update: every other attribute, a processedAt among them,
    every other item, the orders table and the queue are as before. *)
Theorem dead_letter_mark_keeps_attributes
    (envs : nat → DLQProcessor.Env) (record : SQSRecord)
    (m : OrderItemMessage) (item : Item) (w : World) :
  body record = Json m →
  OrderItemsTable w !! (orderId m, itemId m) = Some item →
  DLQProcessor.updateFails (envs 0) = false →
  OrderItemsTable (DLQProcessor.handler envs [record] w).2
  = <[(orderId m, itemId m) :=
        <["failedAt" := AttrS (DLQProcessor.toISOString (envs 0))]>
          (<["itemStatus" := FAILED]> item)]> (OrderItemsTable w) ∧
  (∀ name, name ≠ "itemStatus" → name ≠ "failedAt" →
     attribute (OrderItemsTable (DLQProcessor.handler envs [record] w).2)
       (orderId m, itemId m) name = item !! name) ∧
  OrdersTable (DLQProcessor.handler envs [record] w).2 = OrdersTable w ∧
  OrdersFifoQueue (DLQProcessor.handler envs [record] w).2 = OrdersFifoQueue w ∧
  trace (DLQProcessor.handler envs [record] w).2
  = (trace w
     ++ [EvUpdate (orderId m, itemId m)
           [("itemStatus", AttrS "FAILED");
            ("failedAt", AttrS (DLQProcessor.toISOString (envs 0)))]])%list.
Proof.
  intros Hbody Hitem Hupd. rewrite DLQProcessor_handler_single.
  rewrite (processDLQRecord_Json _ _ m) by done. cbn zeta. rewrite Hupd.
  cbn [fst snd with_OrderItemsTable record_event OrderItemsTable OrdersTable
       OrdersFifoQueue trace].
  rewrite Hitem, assign_two. cbn [default].
  repeat split; try done.
  intros name Hs Hf. unfold attribute. rewrite lookup_insert_eq. simpl.
  by rewrite !lookup_insert_ne by done.
Qed.

Lemma dead_letter_mark_keeps_attributes_witness :
  attribute
    (OrderItemsTable
       (DLQProcessor.handler (λ _, Sample.dlq_env false)
          [Sample.sqs_record "order-001-item-1"]
          (MoreSamples.world_with_processed "order-001-item-1")).2)
    ("order-001", "order-001-item-1") "processedAt"
  = Some (AttrS "2025-01-01T00:00:05.000Z") ∧
  attribute
    (OrderItemsTable
       (DLQProcessor.handler (λ _, Sample.dlq_env false)
          [Sample.sqs_record "order-001-item-1"]
          (MoreSamples.world_with_processed "order-001-item-1")).2)
    ("order-001", "order-001-item-1") "itemDetail"
  = Some (AttrS "Laptop").
Proof.
  destruct (dead_letter_mark_keeps_attributes
              (λ _, Sample.dlq_env false)
              (Sample.sqs_record "order-001-item-1")
              (Sample.item_message "order-001-item-1")
              (MoreSamples.processed_item "order-001-item-1")
              (MoreSamples.world_with_processed "order-001-item-1")
              eq_refl eq_refl eq_refl) as (_ & Hkept & _).
  split.
  - refine (eq_trans (Hkept "processedAt" _ _) _);
      [discriminate | discriminate | reflexivity].
  - refine (eq_trans (Hkept "itemDetail" _ _) _);
      [discriminate | discriminate | reflexivity].
Defined.

(** (X10) An item that is not in the table. When no item is stored under
    the key of a Dead-Letter Queue message, the update of the Dead-Letter
    Handler creates one: an item with the two key attributes, itemStatus
    FAILED and failedAt, and nothing else. *)
Theorem dead_letter_creates_missing_item
    (envs : nat → DLQProcessor.Env) (record : SQSRecord)
    (m : OrderItemMessage) (w : World) :
  body record = Json m →
  OrderItemsTable w !! (orderId m, itemId m) = None →
  DLQProcessor.updateFails (envs 0) = false →
  OrderItemsTable (DLQProcessor.handler envs [record] w).2
    !! (orderId m, itemId m)
  = Some (<["failedAt" := AttrS (DLQProcessor.toISOString (envs 0))]>
            (<["itemStatus" := FAILED]>
               {[ "orderId" := AttrS (orderId m);
                  "itemId" := AttrS (itemId m) ]})) ∧
  (∀ name, name ∉ ["orderId"; "itemId"; "itemStatus"; "failedAt"] →
     attribute (OrderItemsTable (DLQProcessor.handler envs [record] w).2)
       (orderId m, itemId m) name = None).
Proof.
  intros Hbody Hitem Hupd. rewrite DLQProcessor_handler_single.
  rewrite (processDLQRecord_Json _ _ m) by done. cbn zeta. rewrite Hupd.
  cbn [fst snd with_OrderItemsTable record_event OrderItemsTable].
  rewrite Hitem, assign_two, lookup_insert_eq. cbn [default].
  split; [done |].
  intros name Hname. unfold attribute. rewrite lookup_insert_eq. simpl.
  apply not_elem_of_cons in Hname as [H1 Hname].
  apply not_elem_of_cons in Hname as [H2 Hname].
  apply not_elem_of_cons in Hname as [H3 Hname].
  apply not_elem_of_cons in Hname as [H4 _].
  unfold dynamoDB.key_attributes. simpl.
  rewrite !lookup_insert_ne by done. by rewrite lookup_singleton_ne.
Qed.

Lemma dead_letter_creates_missing_item_witness :
  OrderItemsTable
    (DLQProcessor.handler (λ _, Sample.dlq_env false)
       [Sample.sqs_record "order-001-item-3"] Sample.empty_world).2
    !! ("order-001", "order-001-item-3")
  = Some (<["failedAt" := AttrS "2025-01-01T00:02:00.000Z"]>
            (<["itemStatus" := FAILED]>
               {[ "orderId" := AttrS "order-001";
                  "itemId" := AttrS "order-001-item-3" ]})).
Proof.
  apply (dead_letter_creates_missing_item
           (λ _, Sample.dlq_env false)
           (Sample.sqs_record "order-001-item-3")
           (Sample.item_message "order-001-item-3")
           Sample.empty_world eq_refl eq_refl eq_refl).
Defined.

(** (X11) Marking twice. When the same Dead-Letter Queue message is handled
    twice and both updates succeed, the item is FAILED and its failedAt is
    the time of the second update: unlike processedAt, which a redelivery to
    the Item Processor never rewrites, failedAt is rewritten by every
    handling. *)
Theorem dead_letter_marking_twice
    (envs envs' : nat → DLQProcessor.Env) (record : SQSRecord)
    (m : OrderItemMessage) (w : World) :
  body record = Json m →
  DLQProcessor.updateFails (envs 0) = false →
  DLQProcessor.updateFails (envs' 0) = false →
  itemStatus_of
    (DLQProcessor.handler envs' [record]
       (DLQProcessor.handler envs [record] w).2).2
    (orderId m, itemId m) = Some FAILED ∧
  attribute
    (OrderItemsTable
       (DLQProcessor.handler envs' [record]
          (DLQProcessor.handler envs [record] w).2).2)
    (orderId m, itemId m) "failedAt"
  = Some (AttrS (DLQProcessor.toISOString (envs' 0))).
Proof.
  intros Hbody Hupd Hupd'. rewrite !DLQProcessor_handler_single. cbn [snd].
  by apply processDLQRecord_marks.
Qed.

Lemma dead_letter_marking_twice_witness :
  attribute
    (OrderItemsTable
       (DLQProcessor.handler
          (λ _, {| DLQProcessor.updateFails := false;
                   DLQProcessor.toISOString := "2025-01-01T00:03:00.000Z" |})
          [Sample.sqs_record "order-001-item-3"]
          (DLQProcessor.handler (λ _, Sample.dlq_env false)
             [Sample.sqs_record "order-001-item-3"]
             (Sample.world_with "order-001-item-3" "PENDING")).2).2)
    ("order-001", "order-001-item-3") "failedAt"
  = Some (AttrS "2025-01-01T00:03:00.000Z").
Proof.
  apply (dead_letter_marking_twice
           (λ _, Sample.dlq_env false)
           (λ _, {| DLQProcessor.updateFails := false;
                    DLQProcessor.toISOString := "2025-01-01T00:03:00.000Z" |})
           (Sample.sqs_record "order-001-item-3")
           (Sample.item_message "order-001-item-3")
           (Sample.world_with "order-001-item-3" "PENDING")
           eq_refl eq_refl eq_refl).
Defined.

Lemma processDLQRecord_frame env record w :
  OrdersTable (DLQProcessor.processDLQRecord env record w).2 = OrdersTable w ∧
  OrdersFifoQueue (DLQProcessor.processDLQRecord env record w).2
    = OrdersFifoQueue w ∧
  trace (DLQProcessor.processDLQRecord env record w).2
  = (trace w
     ++ match body record with
        | Json m =>
            [EvUpdate (orderId m, itemId m)
               [("itemStatus", AttrS "FAILED");
                ("failedAt", AttrS (DLQProcessor.toISOString env))]]
        | Malformed _ => []
        end)%list ∧
  (∀ key,
     (∀ m, body record = Json m → (orderId m, itemId m) ≠ key) →
     OrderItemsTable (DLQProcessor.processDLQRecord env record w).2 !! key
     = OrderItemsTable w !! key).
Proof.
  destruct (body record) as [m | raw] eqn:Hbody.
  2: { rewrite (processDLQRecord_Malformed _ _ raw) by done.
       simpl. by rewrite app_nil_r. }
  rewrite (processDLQRecord_Json _ _ m) by done. cbn zeta.
  destruct (DLQProcessor.updateFails env); simpl; repeat split; try done.
  intros key Hkey. apply lookup_insert_ne. by apply Hkey.
Qed.

Lemma DLQProcessor_trace envs event w :
  trace (Promise_allSettled
           (imap (λ i record, DLQProcessor.processDLQRecord (envs i) record)
                 event) w).2
  = (trace w
     ++ concat
          (imap (λ i record,
                   match body record with
                   | Json m =>
                       [EvUpdate (orderId m, itemId m)
                          [("itemStatus", AttrS "FAILED");
                           ("failedAt",
                            AttrS (DLQProcessor.toISOString (envs i)))]]
                   | Malformed _ => []
                   end) event))%list.
Proof.
  revert envs w. induction event as [| r event IH]; intros envs w.
  - simpl. by rewrite app_nil_r.
  - cbn [imap Promise_allSettled concat].
    specialize (IH (envs ∘ S)). unfold compose in *. cbn beta in *.
    destruct (processDLQRecord_frame (envs 0) r w) as (_ & _ & Htrace & _).
    destruct (DLQProcessor.processDLQRecord (envs 0) r w) as [r0 w1].
    specialize (IH w1).
    destruct (Promise_allSettled _ w1) as [rs w2]. cbn [snd] in *.
    rewrite IH, Htrace, <- app_assoc. reflexivity.
Qed.

(** (X12) What the Dead-Letter Handler does and never touches, for a batch
    of any size. The requests of the handler are exactly one update per
    well-formed record, in the order of the batch, and no lookup. The orders
    table and the queue are as before, and so is every item whose key is not
    named by a well-formed record of the batch. *)
Theorem dead_letter_handler_frame
    (envs : nat → DLQProcessor.Env) (event : list SQSRecord) (w : World) :
  trace (DLQProcessor.handler envs event w).2
  = (trace w
     ++ concat
          (imap (λ i record,
                   match body record with
                   | Json m =>
                       [EvUpdate (orderId m, itemId m)
                          [("itemStatus", AttrS "FAILED");
                           ("failedAt",
                            AttrS (DLQProcessor.toISOString (envs i)))]]
                   | Malformed _ => []
                   end) event))%list ∧
  OrdersTable (DLQProcessor.handler envs event w).2 = OrdersTable w ∧
  OrdersFifoQueue (DLQProcessor.handler envs event w).2 = OrdersFifoQueue w ∧
  (∀ key,
     (∀ record m, record ∈ event → body record = Json m →
                  (orderId m, itemId m) ≠ key) →
     OrderItemsTable (DLQProcessor.handler envs event w).2 !! key
     = OrderItemsTable w !! key).
Proof.
  rewrite DLQProcessor_handler_world.
  split; [apply DLQProcessor_trace |]. split; [| split].
  - apply (Promise_allSettled_invariant (λ v, OrdersTable v = OrdersTable w));
      [| done].
    intros p v Hp Hv. apply elem_of_lookup_imap in Hp as (i & r & -> & _).
    destruct (processDLQRecord_frame (envs i) r v) as (-> & _). done.
  - apply (Promise_allSettled_invariant
             (λ v, OrdersFifoQueue v = OrdersFifoQueue w)); [| done].
    intros p v Hp Hv. apply elem_of_lookup_imap in Hp as (i & r & -> & _).
    destruct (processDLQRecord_frame (envs i) r v) as (_ & -> & _). done.
  - intros key Hkey.
    apply (Promise_allSettled_invariant
             (λ v, OrderItemsTable v !! key = OrderItemsTable w !! key));
      [| done].
    intros p v Hp Hv. apply elem_of_lookup_imap in Hp as (i & r & -> & Hr).
    destruct (processDLQRecord_frame (envs i) r v) as (_ & _ & _ & Hframe).
    rewrite Hframe; [done |].
    intros m Hbody. apply (Hkey r m); [| done].
    apply list_elem_of_lookup. eauto.
Qed.

Lemma dead_letter_handler_frame_witness :
  OrderItemsTable
    (DLQProcessor.handler (λ _, Sample.dlq_env false)
       [Sample.sqs_record "order-001-item-3"; MoreSamples.malformed_record]
       (Sample.world_with "order-001-item-2" "PENDING")).2
    !! ("order-001", "order-001-item-2")
  = OrderItemsTable (Sample.world_with "order-001-item-2" "PENDING")
      !! ("order-001", "order-001-item-2").
Proof.
  destruct (dead_letter_handler_frame
              (λ _, Sample.dlq_env false)
              [Sample.sqs_record "order-001-item-3";
               MoreSamples.malformed_record]
              (Sample.world_with "order-001-item-2" "PENDING"))
    as (_ & _ & _ & Hitems).
  apply Hitems. intros record m Hin Hbody.
  apply elem_of_cons in Hin as [-> | Hin].
  - injection Hbody as <-. discriminate.
  - apply list_elem_of_singleton in Hin. subst record. discriminate Hbody.
Defined.

(** ** The OrderManager, beyond the claims *)



Lemma Promise_all_sends_queue {R} (fails : nat → bool)
    (command : nat → R → SendMessageCommand) (records : list R) w :
  OrdersFifoQueue
    (Promise_all (imap (λ i r, sqs.send (fails i) (command i r)) records) w).2
  = (OrdersFifoQueue w
     ++ mjoin (imap (λ i r, if fails i then [] else [command i r]) records))%list.
Proof.
  revert fails command w.
  induction records as [| r records IH]; intros fails command w.
  - simpl. by rewrite app_nil_r.
  - cbn [imap Promise_all mjoin list_join].
    specialize (IH (fails ∘ S) (command ∘ S)).
    unfold compose in *. cbn beta in *.
    destruct (sqs.send (fails 0) (command 0 r) w) as [r0 w1] eqn:Hsend.
    specialize (IH w1).
    destruct (Promise_all _ w1) as [rs w2]. cbn [snd] in *.
    rewrite IH. unfold sqs.send in Hsend.
    destruct (fails 0); injection Hsend as <- <-; simpl.
    + reflexivity.
    + by rewrite <- app_assoc.
Qed.



(** What the handler leaves in the tables, whatever fails. *)
Lemma handler_tables env event w :
  (OrdersTable (OrderManager.handler env event w).2 = OrdersTable w
   ∨ OrdersTable (OrderManager.handler env event w).2
     = <[(OrderManager.orderId event, OrderManager.toISOString env) :=
           OrderManager.orderRecord (OrderManager.orderId event)
             (OrderManager.userId event) (OrderManager.orderItems event)
             (OrderManager.orderStatus event) (OrderManager.toISOString env)]>
         (OrdersTable w)) ∧
  (OrderItemsTable (OrderManager.handler env event w).2 = OrderItemsTable w
   ∨ OrderItemsTable (OrderManager.handler env event w).2
     = dynamoDB.put_all
         (map (λ r, ((OrderManager.rec_orderId r, OrderManager.rec_itemId r),
                     OrderManager.to_item r))
              (OrderManager.orderItemRecords_of (OrderManager.orderId event)
                 (OrderManager.orderItems event)
                 (OrderManager.toISOString env)))
         (OrderItemsTable w)).
Proof.
  destruct (OrderManager.putFails env) eqn:Hput.
  { rewrite handler_put_fails by done. auto. }
  destruct (OrderManager.batchWriteFails env) eqn:Hbatch.
  { rewrite handler_batch_fails by done. auto. }
  destruct (handler_written env event w Hput Hbatch) as (-> & -> & _). auto.
Qed.

Lemma puts_keys o items ts key :
  key ∈ (map (λ r, ((OrderManager.rec_orderId r, OrderManager.rec_itemId r),
                    OrderManager.to_item r))
             (OrderManager.orderItemRecords_of o items ts)).*1 →
  ∃ k, k < length items ∧ key = (o, OrderManager.itemId_of o k).
Proof.
  intros Hin. apply list_elem_of_lookup in Hin as [k Hk].
  rewrite !list_lookup_fmap in Hk.
  destruct (OrderManager.orderItemRecords_of o items ts !! k) as [r |] eqn:Hr;
    [| done].
  exists k. split.
  - apply lookup_lt_Some in Hr. by rewrite orderItemRecords_length in Hr.
  - apply orderItemRecords_key in Hr as [Ho Hi]. simpl in Hk.
    rewrite Ho, Hi in Hk. congruence.
Qed.

(** (X15) What ingestion never touches. Whatever fails, ingestion of an
    order changes no Order record but the one of its order id and timestamp,
    and no Item record but those of its order id whose item id is that of a
    position of the order: the items of other orders stay, and so do items of
    the same order id at positions the order does not have. *)
Theorem ingestion_frame
    (env : OrderManager.Env) (event : OrderManager.OrderEvent) (w : World) :
  (∀ key,
     key ≠ (OrderManager.orderId event, OrderManager.toISOString env) →
     OrdersTable (OrderManager.handler env event w).2 !! key
     = OrdersTable w !! key) ∧
  (∀ key,
     key.1 ≠ OrderManager.orderId event →
     OrderItemsTable (OrderManager.handler env event w).2 !! key
     = OrderItemsTable w !! key) ∧
  (∀ id,
     (∀ k, k < length (OrderManager.orderItems event) →
           id ≠ OrderManager.itemId_of (OrderManager.orderId event) k) →
     OrderItemsTable (OrderManager.handler env event w).2
       !! (OrderManager.orderId event, id)
     = OrderItemsTable w !! (OrderManager.orderId event, id)).
Proof.
  destruct (handler_tables env event w) as [Horders Hitems].
  split; [| split].
  - intros key Hkey. destruct Horders as [-> | ->]; [done |].
    by apply lookup_insert_ne.
  - intros key Hkey. destruct Hitems as [-> | ->]; [done |].
    apply put_all_lookup_notin. intros Hin.
    apply puts_keys in Hin as (k & _ & ->). done.
  - intros id Hid. destruct Hitems as [-> | ->]; [done |].
    apply put_all_lookup_notin. intros Hin.
    apply puts_keys in Hin as (k & Hk & Heq).
    injection Heq as ->. by apply (Hid k).
Qed.

(** An order of one item is ingested over a table that holds an item of
    position 5 of the same order id: that item stays. *)
Lemma ingestion_frame_witness :
  OrderItemsTable
    (OrderManager.handler (Sample.manager_env false false false)
       Sample.order_001 (Sample.world_with "order-001-item-5" "PROCESSED")).2
    !! ("order-001", "order-001-item-5")
  = Some (Sample.stored_item "order-001-item-5" "PROCESSED").
Proof.
  destruct (ingestion_frame (Sample.manager_env false false false)
              Sample.order_001
              (Sample.world_with "order-001-item-5" "PROCESSED"))
    as (_ & _ & Hstale).
  refine (eq_trans (Hstale "order-001-item-5" _) _); [| reflexivity].
  intros k Hk. simpl in Hk.
  destruct k as [| k]; [discriminate | lia].
Defined.

(** (X16) Ingestion overwrites the items. When the two writes succeed, the
    Item record stored for each position of the order is the fresh record,
    whatever was stored under that key before: an item that was PROCESSED or
    FAILED is PENDING again and has neither processedAt nor failedAt. *)
Theorem ingestion_overwrites_items
    (env : OrderManager.Env) (event : OrderManager.OrderEvent) (w : World)
    (k : nat) (item : OrderManager.OrderItem) :
  OrderManager.putFails env = false →
  OrderManager.batchWriteFails env = false →
  OrderManager.orderItems event !! k = Some item →
  OrderItemsTable (OrderManager.handler env event w).2
    !! (OrderManager.orderId event,
        OrderManager.itemId_of (OrderManager.orderId event) k)
  = Some (OrderManager.to_item
            {| OrderManager.rec_orderId := OrderManager.orderId event;
               OrderManager.rec_itemId :=
                 OrderManager.itemId_of (OrderManager.orderId event) k;
               OrderManager.rec_itemDetail := OrderManager.itemDetail item;
               OrderManager.rec_quantity := OrderManager.quantity item;
               OrderManager.rec_price := OrderManager.price item;
               OrderManager.rec_itemStatus := "PENDING";
               OrderManager.rec_timestamp := OrderManager.toISOString env |}) ∧
  itemStatus_of (OrderManager.handler env event w).2
    (OrderManager.orderId event,
     OrderManager.itemId_of (OrderManager.orderId event) k) = Some PENDING ∧
  attribute (OrderItemsTable (OrderManager.handler env event w).2)
    (OrderManager.orderId event,
     OrderManager.itemId_of (OrderManager.orderId event) k) "processedAt"
  = None ∧
  attribute (OrderItemsTable (OrderManager.handler env event w).2)
    (OrderManager.orderId event,
     OrderManager.itemId_of (OrderManager.orderId event) k) "failedAt"
  = None.
Proof.
  intros Hput Hbatch Hk.
  destruct (handler_written env event w Hput Hbatch) as (_ & Hitems & _).
  unfold itemStatus_of, attribute.
  rewrite Hitems, (put_all_orderItemRecords _ _ _ _ _ item) by done.
  split; [done |]. simpl. unfold OrderManager.to_item. simpl.
  split; [lookup_attribute |].
  split; (rewrite !lookup_insert_ne by done; by rewrite lookup_singleton_ne).
Qed.

Lemma ingestion_overwrites_items_witness :
  itemStatus_of (MoreSamples.world_with_processed "order-001-item-0")
    ("order-001", "order-001-item-0") = Some PROCESSED ∧
  itemStatus_of
    (OrderManager.handler (Sample.manager_env false false false)
       Sample.order_001
       (MoreSamples.world_with_processed "order-001-item-0")).2
    ("order-001", "order-001-item-0") = Some PENDING ∧
  attribute
    (OrderItemsTable
       (OrderManager.handler (Sample.manager_env false false false)
          Sample.order_001
          (MoreSamples.world_with_processed "order-001-item-0")).2)
    ("order-001", "order-001-item-0") "processedAt" = None.
Proof.
  split; [reflexivity |].
  destruct (ingestion_overwrites_items
              (Sample.manager_env false false false) Sample.order_001
              (MoreSamples.world_with_processed "order-001-item-0")
              0 Sample.laptop eq_refl eq_refl eq_refl)
    as (_ & Hstatus & Hstamp & _).
  split; [exact Hstatus | exact Hstamp].
Defined.



(** (X18) The messages of an order. When the two writes succeed, whatever
    the sends do, every message that ingestion adds to the queue is addressed
    to the queue of the environment, has the order id as its MessageGroupId,
    and has as its body an Item record of the order as it is stored: a body
    with itemStatus PENDING and the order id, and without a userId, which the
    message type of the two consumers declares. *)
Theorem enqueued_message_bodies
    (env : OrderManager.Env) (event : OrderManager.OrderEvent) (w : World) :
  OrderManager.putFails env = false →
  OrderManager.batchWriteFails env = false →
  ∃ added,
    OrdersFifoQueue (OrderManager.handler env event w).2
    = (OrdersFifoQueue w ++ added)%list ∧
    ∀ command, command ∈ added →
      QueueUrl command = OrderManager.ORDERS_FIFO_QUEUE_URL env ∧
      MessageGroupId command = OrderManager.orderId event ∧
      MessageBody command !! "orderId"
      = Some (AttrS (OrderManager.orderId event)) ∧
      MessageBody command !! "itemStatus" = Some PENDING ∧
      MessageBody command !! "userId" = None ∧
      ∃ k, k < length (OrderManager.orderItems event) ∧
           OrderItemsTable (OrderManager.handler env event w).2
             !! (OrderManager.orderId event,
                 OrderManager.itemId_of (OrderManager.orderId event) k)
           = Some (MessageBody command).
Proof.
  intros Hput Hbatch.
  destruct (handler_written env event w Hput Hbatch) as (_ & Hitems & _).
  rewrite OrderManager_handler_eq, addOrderToDatabase_eq in *.
  cbn zeta in *. rewrite Hput, Hbatch in *.
  match goal with
  | |- context [Promise_all (imap _ ?records) ?w3] =>
      pose proof (Promise_all_sends_queue (OrderManager.sendFails env)
                    (OrderManager.message env) records w3) as Hqueue
  end.
  destruct (Promise_all _ _) as [rs w''].
  assert (OrderItemsTable (match rs with
                           | Fulfilled _ =>
                               (Fulfilled
                                  {| OrderManager.statusCode := 200;
                                     OrderManager.body_message :=
                                       "Orders processed successfully" |}, w'')
                           | Rejected e => (Rejected e, w'')
                           end).2 = OrderItemsTable w'') as Hsame
    by (by destruct rs).
  rewrite Hsame in Hitems.
  assert (OrdersFifoQueue (match rs with
                           | Fulfilled _ =>
                               (Fulfilled
                                  {| OrderManager.statusCode := 200;
                                     OrderManager.body_message :=
                                       "Orders processed successfully" |}, w'')
                           | Rejected e => (Rejected e, w'')
                           end).2 = OrdersFifoQueue w'') as ->
    by (by destruct rs).
  rewrite Hsame. cbn [snd] in Hqueue.
  eexists. split; [exact Hqueue |].
  intros command Hin.
  apply list_elem_of_join in Hin as (l & Hcommand & Hl).
  apply elem_of_lookup_imap in Hl as (k & r & -> & Hr).
  destruct (OrderManager.sendFails env k);
    [by apply elem_of_nil in Hcommand |].
  apply list_elem_of_singleton in Hcommand. subst command.
  unfold OrderManager.orderItemRecords_of in Hr.
  rewrite list_lookup_imap in Hr.
  destruct (OrderManager.orderItems event !! k) as [item |] eqn:Hitem;
    [| done].
  injection Hr as <-.
  unfold OrderManager.message, OrderManager.to_item.
  cbn [QueueUrl MessageGroupId MessageBody OrderManager.rec_orderId
       OrderManager.rec_itemId OrderManager.rec_itemDetail
       OrderManager.rec_quantity OrderManager.rec_price
       OrderManager.rec_itemStatus OrderManager.rec_timestamp].
  split; [done |]. split; [done |].
  split; [lookup_attribute |]. split; [lookup_attribute |].
  split; [rewrite !lookup_insert_ne by done; by rewrite lookup_singleton_ne |].
  exists k. split; [by apply lookup_lt_Some in Hitem |].
  by rewrite Hitems, (put_all_orderItemRecords _ _ _ _ _ item).
Qed.

Lemma enqueued_message_bodies_witness :
  ∃ added,
    OrdersFifoQueue
      (OrderManager.handler (Sample.manager_env false false false)
         Sample.order_001 Sample.empty_world).2 = added ∧
    ∀ command, command ∈ added → MessageBody command !! "userId" = None.
Proof.
  destruct (enqueued_message_bodies (Sample.manager_env false false false)
              Sample.order_001 Sample.empty_world eq_refl eq_refl)
    as (added & Hqueue & Hbodies).
  exists added. split; [exact Hqueue |].
  intros command Hin. by destruct (Hbodies command Hin) as (_ & _ & _ & _ & ? & _).
Defined.

(** ** Ingestion and processing together *)

(** (X19) Items that cannot fail. A message of an item that the OrderManager
    placed at a position whose last digit is neither 1 nor 3 is processed at
    its first delivery whatever is drawn: when the item is not in a terminal
    status and the lookup and the update succeed, the handler resolves and
    the item is PROCESSED. *)
Theorem items_at_other_positions_are_processed
    (envs : nat → OrderProcessor.Env) (record : SQSRecord)
    (m : OrderItemMessage) (k : nat) (w : World) :
  body record = Json m →
  itemId m = OrderManager.itemId_of (orderId m) k →
  k mod 10 ≠ 1 → k mod 10 ≠ 3 →
  ¬ terminal (itemStatus_of w (orderId m, itemId m)) →
  OrderProcessor.getFails (envs 0) = false →
  OrderProcessor.updateFails (envs 0) = false →
  (OrderProcessor.handler envs [record] w).1 = Fulfilled tt ∧
  itemStatus_of (OrderProcessor.handler envs [record] w).2
    (orderId m, itemId m) = Some PROCESSED.
Proof.
  intros Hbody Hid H1 H3 Hterm Hget Hupd.
  assert (OrderProcessor.shouldSimulateFailure (itemId m)
            (OrderProcessor.mathRandom (envs 0)) = false) as Hwork.
  { rewrite Hid. unfold OrderProcessor.shouldSimulateFailure. cbn zeta.
    rewrite slice_last_itemId_of.
    change "3" with (Js.index_toString 3).
    change "1" with (Js.index_toString 1).
    rewrite !bool_decide_eq_false_2;
      [done | intros H; by apply index_toString_inj in H ..]. }
  rewrite (handler_single_worked _ _ m) by done. cbn zeta. rewrite Hupd.
  cbn [fst snd]. split; [done |].
  unfold itemStatus_of. simpl. rewrite lookup_insert_eq. simpl.
  rewrite lookup_insert_ne by done. apply lookup_insert_eq.
Qed.

Lemma items_at_other_positions_are_processed_witness :
  (OrderProcessor.handler (λ _, Sample.processor_env false 0.25%float false)
     [Sample.sqs_record "order-001-item-12"]
     (Sample.world_with "order-001-item-12" "PENDING")).1 = Fulfilled tt ∧
  itemStatus_of
    (OrderProcessor.handler (λ _, Sample.processor_env false 0.25%float false)
       [Sample.sqs_record "order-001-item-12"]
       (Sample.world_with "order-001-item-12" "PENDING")).2
    ("order-001", "order-001-item-12") = Some PROCESSED.
Proof.
  apply (items_at_other_positions_are_processed
           (λ _, Sample.processor_env false 0.25%float false)
           (Sample.sqs_record "order-001-item-12")
           (Sample.item_message "order-001-item-12") 12
           (Sample.world_with "order-001-item-12" "PENDING"));
    try reflexivity; try (simpl; lia).
  intros [H | H]; vm_compute in H; discriminate H.
Defined.
